(** * The MCP client of [mcp-client/client.py], embedded in Rocq

  The client launches a tool server as a subprocess, opens an MCP session
  with it and mediates between a language model and the server's tools.
  Everything the client talks to (the subprocess transport, the MCP
  session, the model provider, the console, the exit stack) is an
  [Env]: a world state and one transition per library call, each of which
  may raise.  The Python code becomes a state-and-exception monad over a
  [State] that carries the world, the attributes of [self] and a trace of
  the library calls made so far.

  Every coroutine of the client is awaited where it is called, so the
  client runs as sequential code: one state is threaded through the calls
  in program order.

  [client.py] writes [connect_to_server], [process_query], [chat_loop] and
  [cleanup] with a [self] parameter at module level; the class [MCPClient]
  holds [__init__] only.  They are embedded as the functions they are, each
  taking the attributes of [self] from the state.  [main] and [chat_loop]
  reach for them as attributes of an [MCPClient] ([client.cleanup()],
  [self.process_query(query)]), and that lookup raises [AttributeError]:
  the embedding of [main] and of the loop keeps it so. *)

From Stdlib Require Import String Ascii List Arith Bool Lia.
Import ListNotations.
Open Scope string_scope.

Set Implicit Arguments.

(** ** Python strings *)

(** The line feed of ["\n"]. *)
Definition LF : string := String "010"%char EmptyString.

(** [s.endswith(suffix)]: some tail of [s] is [suffix]. *)
Fixpoint endswith (s suffix : string) : bool :=
  String.eqb s suffix ||
  match s with
  | EmptyString => false
  | String _ s' => endswith s' suffix
  end.

(** [sep.join(l)]. *)
Definition join (sep : string) (l : list string) : string := String.concat sep l.

(** ** Python exceptions *)

Inductive PyExc : Type :=
| ValueError (msg : string)
| AttributeError (msg : string)
| IndexError (msg : string)
| EOFError (msg : string)
| LibraryError (cls msg : string)   (* an Exception subclass of mcp, anthropic or the OS *)
| KeyboardInterrupt
| CancelledError
| SystemExit (code : nat).

(** [isinstance(e, Exception)]: the last three derive from BaseException only. *)
Definition is_Exception (e : PyExc) : bool :=
  match e with
  | KeyboardInterrupt | CancelledError | SystemExit _ => false
  | _ => true
  end.

(** [str(e)] for the exceptions an [except Exception] clause can bind. *)
Definition str_exc (e : PyExc) : string :=
  match e with
  | ValueError m | AttributeError m | IndexError m | EOFError m => m
  | LibraryError _ m => m
  | KeyboardInterrupt | CancelledError | SystemExit _ => ""
  end.

(** ** Messages, content blocks and tools *)

Section Data.
Variables Json ToolContent : Type.

(** A block of [response.content], told apart by its [type] attribute. *)
Inductive ContentBlock : Type :=
| TextBlock (text : string)
| ToolUseBlock (id name : string) (input : Json)
| OtherBlock (class_name type : string).  (* type is neither 'text' nor 'tool_use' *)

(** The dict [{"type": "tool_result", "tool_use_id": ..., "content": ...}]. *)
Record ToolResult : Type := {
  tool_use_id : string;
  result_content : ToolContent
}.

Inductive Role : Type := user | assistant.

Inductive MessageContent : Type :=
| ContentText (s : string)
| ContentBlocks (blocks : list ContentBlock)
| ContentResults (results : list ToolResult).

(** A message as the provider receives it. *)
Record Message : Type := {
  role : Role;
  content : MessageContent
}.

(** An element of the Python list [messages].  The assistant dict holds
    the list object [assistant_message_content] itself, not a copy: what
    it contains is read when the history is sent. *)
Inductive MessageRef : Type :=
| Literal (m : Message)
| AssistantAlias.

Definition deref (assistant_message_content : list ContentBlock)
    (r : MessageRef) : Message :=
  match r with
  | Literal m => m
  | AssistantAlias =>
      {| role := assistant; content := ContentBlocks assistant_message_content |}
  end.

(** A tool descriptor of [list_tools().tools]. *)
Record Tool : Type := {
  tool_name : string;
  tool_description : option string;
  inputSchema : Json
}.

(** The dict built for the provider's [tools] argument. *)
Record ToolParam : Type := {
  param_name : string;
  param_description : option string;
  input_schema : Json
}.

Record CallToolResult : Type := {
  call_content : ToolContent;
  isError : bool
}.

Record StdioServerParameters : Type := {
  command : string;
  args : list string;
  env : option (list (string * string))
}.

(** The library calls the client makes, in the order it makes them. *)
Inductive Event : Type :=
| EvAnthropic
| EvStdioClient (server_params : StdioServerParameters)
| EvClientSession
| EvInitialize
| EvListTools
| EvMessagesCreate (model : string) (max_tokens : nat)
    (messages : list Message) (tools : list ToolParam)
| EvCallTool (name : string) (arguments : Json)
| EvInput (prompt : string)
| EvPrint (text : string)
| EvAclose.
End Data.

Arguments TextBlock {Json} text.
Arguments OtherBlock {Json} class_name type.
Arguments ContentText {Json ToolContent} s.
Arguments ContentBlocks {Json ToolContent} blocks.
Arguments ContentResults {Json ToolContent} results.
Arguments AssistantAlias {Json ToolContent}.
Arguments EvAnthropic {Json ToolContent}.
Arguments EvStdioClient {Json ToolContent} server_params.
Arguments EvClientSession {Json ToolContent}.
Arguments EvInitialize {Json ToolContent}.
Arguments EvListTools {Json ToolContent}.
Arguments EvCallTool {Json ToolContent} name arguments.
Arguments EvInput {Json ToolContent} prompt.
Arguments EvPrint {Json ToolContent} text.
Arguments EvAclose {Json ToolContent}.

(** ** The environment *)

(** What [AsyncExitStack.enter_async_context] registers. *)
Inductive Resource (Transport Session : Type) : Type :=
| ResTransport (t : Transport)
| ResSession (h : Session).

Arguments ResTransport {Transport Session} t.
Arguments ResSession {Transport Session} h.

(** A library call: it may change the world, and returns or raises. *)
Definition Raises (W A : Type) : Type := W -> (PyExc + A) * W.

(** The libraries the client is written against.  The values the client
    only passes along (tool inputs, schemas, tool outputs) and the handles
    it holds are kept abstract, as are the Python builtins it formats and
    normalises strings with. *)
Record Env : Type := {
  Json : Type;                 (* tool inputs and schemas *)
  ToolContent : Type;          (* [result.content] of a tool call *)
  World : Type;
  Transport : Type;            (* the pair (stdio, write) *)
  Session : Type;              (* a ClientSession *)
  Anthropic_new : Raises World unit;
  stdio_client : StdioServerParameters -> Raises World Transport;
  ClientSession : Transport -> Raises World Session;
  session_initialize : Session -> Raises World unit;
  session_list_tools : Session -> Raises World (list (Tool Json));
  session_call_tool :
    Session -> string -> Json -> Raises World (CallToolResult ToolContent);
  messages_create :
    string -> nat -> list (Message Json ToolContent) -> list (ToolParam Json) ->
    Raises World (list (ContentBlock Json));
  exit_stack_aclose : list (Resource Transport Session) -> Raises World unit;
  builtin_input : string -> Raises World string;
  str_json : Json -> string;   (* how an f-string formats a tool input *)
  repr_str : string -> string; (* [repr] of a str *)
  str_strip : string -> string;
  str_lower : string -> string
}.

(** ** The monad of the client *)

Inductive Outcome (A : Type) : Type :=
| Ok (a : A)
| Raise (e : PyExc)
| Running.                      (* the REPL is still reading: out of fuel *)

Arguments Raise {A} e.
Arguments Running {A}.

Section Client.
Variable E : Env.

Local Abbreviation Ev := (Event (Json E) (ToolContent E)).

(** The world, the attributes of [self], and the calls made so far. *)
Record State : Type := {
  world : World E;
  trace : list Ev;
  self_session : option (Session E);
  self_stdio_write : option (Transport E);
  exit_stack : list (Resource (Transport E) (Session E))
}.

Definition M (A : Type) : Type := State -> Outcome A * State.

Definition ret {A} (a : A) : M A := fun s => (Ok a, s).

Definition bind {A B} (c : M A) (k : A -> M B) : M B :=
  fun s =>
    match c s with
    | (Ok a, s') => k a s'
    | (Raise e, s') => (Raise e, s')
    | (Running, s') => (Running, s')
    end.

Definition raise {A} (e : PyExc) : M A := fun s => (Raise e, s).

Definition running {A} : M A := fun s => (Running, s).

(** [try: body  except Exception as e: handler(e)]. *)
Definition try_except {A} (body : M A) (handler : PyExc -> M A) : M A :=
  fun s =>
    match body s with
    | (Raise e, s') => if is_Exception e then handler e s' else (Raise e, s')
    | r => r
    end.

(** [try: body  finally: final]: an exception of [final] replaces the
    outcome of [body]. *)
Definition try_finally {A} (body : M A) (final : M unit) : M A :=
  fun s =>
    match body s with
    | (Running, s') => (Running, s')
    | (r, s') =>
        match final s' with
        | (Ok _, s'') => (r, s'')
        | (Raise e, s'') => (Raise e, s'')
        | (Running, s'') => (Running, s'')
        end
    end.

Definition set_world (w : World E) (s : State) : State :=
  {| world := w; trace := trace s; self_session := self_session s;
     self_stdio_write := self_stdio_write s; exit_stack := exit_stack s |}.

Definition log (ev : Ev) (s : State) : State :=
  {| world := world s; trace := trace s ++ [ev]; self_session := self_session s;
     self_stdio_write := self_stdio_write s; exit_stack := exit_stack s |}.

(** A library call: recorded, then run on the world. *)
Definition call {A} (ev : Ev) (op : Raises (World E) A) : M A :=
  fun s =>
    match op (world s) with
    | (inr a, w) => (Ok a, set_world w (log ev s))
    | (inl e, w) => (Raise e, set_world w (log ev s))
    end.

(** [print(text)]: the text is recorded; writing to the console is taken
    not to fail. *)
Definition print (text : string) : M unit :=
  fun s => (Ok tt, log (EvPrint text) s).
End Client.

Arguments ret {E A} a.
Arguments raise {E A} e.
Arguments running {E A}.

Declare Scope py_scope.
Delimit Scope py_scope with py.
Notation "x <- c ;; k" := (bind c (fun x => k))
  (at level 61, c at next level, right associativity) : py_scope.
Notation "c ;; k" := (bind c (fun _ => k))
  (at level 61, right associativity) : py_scope.
Open Scope py_scope.

(** ** The client *)

Section Program.
Variable E : Env.

Local Abbreviation Block := (ContentBlock (Json E)).
Local Abbreviation Msg := (Message (Json E) (ToolContent E)).
Local Abbreviation MsgRef := (MessageRef (Json E) (ToolContent E)).
Local Abbreviation Ev := (Event (Json E) (ToolContent E)).

(** *** Attribute access on [self] *)

(** [self.session.<method>]: [self.session] is [None] until
    [connect_to_server] has run. *)
Definition get_session (method : string) : M E (Session E) :=
  fun s =>
    match self_session s with
    | Some h => (Ok h, s)
    | None =>
        (Raise (AttributeError
                  ("'NoneType' object has no attribute '" ++ method ++ "'")), s)
    end.

Definition set_session (h : Session E) : M E unit :=
  fun s =>
    (Ok tt, {| world := world s; trace := trace s; self_session := Some h;
               self_stdio_write := self_stdio_write s; exit_stack := exit_stack s |}).

Definition set_stdio_write (t : Transport E) : M E unit :=
  fun s =>
    (Ok tt, {| world := world s; trace := trace s; self_session := self_session s;
               self_stdio_write := Some t; exit_stack := exit_stack s |}).

(** [self.exit_stack.enter_async_context(cm)]: the resource is registered
    only when entering it succeeded. *)
Definition enter_async_context {A} (ev : Ev) (op : Raises (World E) A)
    (res : A -> Resource (Transport E) (Session E)) : M E A :=
  a <- call ev op ;;
  fun s =>
    (Ok a, {| world := world s; trace := trace s; self_session := self_session s;
              self_stdio_write := self_stdio_write s;
              exit_stack := res a :: exit_stack s |}).

(** [MCPClient.__init__]. *)
Definition MCPClient_init : M E unit :=
  fun s =>
    call EvAnthropic (Anthropic_new E)
      {| world := world s; trace := trace s; self_session := None;
         self_stdio_write := None; exit_stack := [] |}.

(** *** [connect_to_server] *)

Definition repr_list (l : list string) : string :=
  "[" ++ join ", " (map (repr_str E) l) ++ "]".

Definition connect_to_server (server_script_path : string) : M E unit :=
  let is_python := endswith server_script_path ".py" in
  let is_js := endswith server_script_path ".js" in
  if negb (is_python || is_js) then
    raise (ValueError "Server script must be a .py or .js file")
  else
    let command := if is_python then "python" else "node" in
    let server_params :=
      {| command := command; args := [server_script_path]; env := None |} in
    stdio_transport <- enter_async_context (EvStdioClient server_params)
                         (stdio_client E server_params) ResTransport ;;
    set_stdio_write stdio_transport ;;
    session <- enter_async_context EvClientSession
                 (ClientSession E stdio_transport) ResSession ;;
    set_session session ;;
    h <- get_session "initialize" ;;
    call EvInitialize (session_initialize E h) ;;
    h <- get_session "list_tools" ;;
    tools <- call EvListTools (session_list_tools E h) ;;
    print (LF ++ "Connected to server with tools:" ++ " "
              ++ repr_list (map (@tool_name _) tools)).

(** *** [process_query] *)

Definition MODEL : string := "claude-sonnet-4-20250514".
Definition MAX_TOKENS : nat := 1000.

(** The locals of [process_query] that the loop updates. *)
Record Locals : Type := {
  messages : list MsgRef;
  final_text : list string;
  assistant_message_content : list Block
}.

(** The history as [messages.create] serialises it. *)
Definition snapshot (l : Locals) : list Msg :=
  map (deref (assistant_message_content l)) (messages l).

Definition to_param (tool : Tool (Json E)) : ToolParam (Json E) :=
  {| param_name := tool_name tool;
     param_description := tool_description tool;
     input_schema := inputSchema tool |}.

Definition user_message (query : string) : Msg :=
  {| role := user; content := ContentText query |}.

Definition tool_result_message (id : string) (c : ToolContent E) : Msg :=
  {| role := user;
     content := ContentResults [ {| tool_use_id := id; result_content := c |} ] |}.

Definition calling_tool (tool_name : string) (tool_args : Json E) : string :=
  "[Calling tool " ++ tool_name ++ " with args " ++ str_json E tool_args ++ "]".

(** [response.content[0].text]. *)
Definition first_text (response : list Block) : M E string :=
  match response with
  | [] => raise (IndexError "list index out of range")
  | TextBlock text :: _ => ret text
  | ToolUseBlock _ _ _ :: _ =>
      raise (AttributeError "'ToolUseBlock' object has no attribute 'text'")
  | OtherBlock cls _ :: _ =>
      raise (AttributeError ("'" ++ cls ++ "' object has no attribute 'text'"))
  end.

Definition anthropic_create (l : Locals) (available_tools : list (ToolParam (Json E)))
    : M E (list Block) :=
  let sent := snapshot l in
  call (EvMessagesCreate MODEL MAX_TOKENS sent available_tools)
       (messages_create E MODEL MAX_TOKENS sent available_tools).

(** The body of [for content in response.content]. *)
Definition scan_block (available_tools : list (ToolParam (Json E)))
    (content : Block) (l : Locals) : M E Locals :=
  match content with
  | TextBlock text =>
      ret {| messages := messages l;
             final_text := final_text l ++ [text];
             assistant_message_content := assistant_message_content l ++ [content] |}
  | ToolUseBlock id tool_name tool_args =>
      h <- get_session "call_tool" ;;
      result <- call (EvCallTool tool_name tool_args)
                     (session_call_tool E h tool_name tool_args) ;;
      let l1 :=
        {| messages :=
             messages l ++ [AssistantAlias;
                            Literal (tool_result_message id (call_content result))];
           final_text := final_text l ++ [calling_tool tool_name tool_args];
           assistant_message_content := assistant_message_content l ++ [content] |} in
      response <- anthropic_create l1 available_tools ;;
      text <- first_text response ;;
      ret {| messages := messages l1;
             final_text := final_text l1 ++ [text];
             assistant_message_content := assistant_message_content l1 |}
  | OtherBlock _ _ => ret l
  end.

(** The [for] loop: it runs over the list object the first response
    holds, whatever [response] is rebound to inside the body. *)
Fixpoint scan (available_tools : list (ToolParam (Json E)))
    (blocks : list Block) (l : Locals) : M E Locals :=
  match blocks with
  | [] => ret l
  | content :: rest =>
      l' <- scan_block available_tools content l ;;
      scan available_tools rest l'
  end.

(** [process_query] up to its [return]: the locals when the loop ends. *)
Definition orchestrate (query : string) : M E Locals :=
  let l0 := {| messages := [Literal (user_message query)];
               final_text := [];
               assistant_message_content := [] |} in
  h <- get_session "list_tools" ;;
  tools <- call EvListTools (session_list_tools E h) ;;
  let available_tools := map to_param tools in
  response <- anthropic_create l0 available_tools ;;
  scan available_tools response l0.

Definition process_query (query : string) : M E string :=
  l <- orchestrate query ;;
  ret (join LF (final_text l)).

(** *** Looking a function up on an [MCPClient]

    The class body of [MCPClient] defines [__init__] and nothing else, and
    an instance holds [session], [exit_stack] and [anthropic] (and [stdio]
    and [write] once connected).  [client.NAME], for [NAME] one of the
    functions of the module, therefore finds nothing and raises, before any
    argument of the call is evaluated. *)
Definition no_attribute (name : string) : PyExc :=
  AttributeError ("'MCPClient' object has no attribute '" ++ name ++ "'").

Definition MCPClient_getattr {A : Type} (name : string) : M E A :=
  raise (no_attribute name).

(** *** [chat_loop] *)

Inductive Control : Type := Continue | Break.

(** The [try] block of the loop's body; [self] is an [MCPClient]. *)
Definition chat_try : M E Control :=
  line <- call (EvInput (LF ++ "Query: ")) (builtin_input E (LF ++ "Query: ")) ;;
  let query := str_strip E line in
  if String.eqb (str_lower E query) "quit" then ret Break
  else
    self_process_query <- MCPClient_getattr (A:=string -> M E string) "process_query" ;;
    response <- self_process_query query ;;
    print (LF ++ response) ;;
    ret Continue.

(** One pass through the body of [while True]. *)
Definition chat_iteration : M E Control :=
  try_except chat_try
    (fun e => print (LF ++ "Error: " ++ str_exc e) ;; ret Continue).

(** [while True]: [fuel] bounds the number of passes observed. *)
Fixpoint while_true (fuel : nat) : M E unit :=
  match fuel with
  | O => running
  | S fuel' =>
      c <- chat_iteration ;;
      match c with
      | Break => ret tt
      | Continue => while_true fuel'
      end
  end.

Definition chat_loop (fuel : nat) : M E unit :=
  print (LF ++ "MCP Client Started!") ;;
  print "Type your queries or 'quit' to exit." ;;
  while_true fuel.

(** *** [cleanup] and [main] *)

Definition cleanup : M E unit :=
  fun s =>
    call EvAclose (exit_stack_aclose E (exit_stack s))
      {| world := world s; trace := trace s; self_session := self_session s;
         self_stdio_write := self_stdio_write s; exit_stack := [] |}.

(** [sys.exit(code)]. *)
Definition sys_exit (code : nat) : M E unit := raise (SystemExit code).

(** [main]: [client] is the [MCPClient] built on the line before the
    [try], so each [client.NAME] of the [try] statement is a lookup on that
    instance. *)
Definition main (fuel : nat) (argv : list string) : M E unit :=
  if Nat.ltb (List.length argv) 2 then
    print "Usage: python client.py <path_to_server_script>" ;;
    sys_exit 1
  else
    MCPClient_init ;;
    try_finally
      (client_connect_to_server <-
         MCPClient_getattr (A:=string -> M E unit) "connect_to_server" ;;
       client_connect_to_server (nth 1 argv "") ;;
       client_chat_loop <- MCPClient_getattr (A:=nat -> M E unit) "chat_loop" ;;
       client_chat_loop fuel)
      (client_cleanup <- MCPClient_getattr (A:=M E unit) "cleanup" ;;
       client_cleanup).

End Program.

Arguments get_session {E} method.
Arguments print {E} text.
Arguments call {E A} ev op.
Arguments cleanup {E}.
Arguments MCPClient_init {E}.
Arguments chat_try {E}.
Arguments chat_iteration {E}.
Arguments MCPClient_getattr {E A} name.
Arguments while_true {E} fuel.
Arguments chat_loop {E} fuel.
Arguments main {E} fuel argv.
Arguments connect_to_server {E} server_script_path.
Arguments process_query {E} query.
Arguments orchestrate {E} query.
Arguments scan {E} available_tools blocks l.
Arguments scan_block {E} available_tools content l.
Arguments first_text {E} response.
Arguments anthropic_create {E} l available_tools.

(** ** What a trace and a response contain *)

Section Observers.
Variables Json ToolContent : Type.

Local Abbreviation Block := (ContentBlock Json).
Local Abbreviation Ev := (Event Json ToolContent).

(** The [tool_use] blocks of a response, as (id, name, input). *)
Fixpoint tool_uses (blocks : list Block) : list (string * string * Json) :=
  match blocks with
  | [] => []
  | ToolUseBlock id name input :: rest => (id, name, input) :: tool_uses rest
  | _ :: rest => tool_uses rest
  end.

(** The texts of the [text] blocks of a response. *)
Fixpoint texts (blocks : list Block) : list string :=
  match blocks with
  | [] => []
  | TextBlock text :: rest => text :: texts rest
  | _ :: rest => texts rest
  end.

Definition has_tool_use (blocks : list Block) : bool :=
  match tool_uses blocks with [] => false | _ :: _ => true end.

(** The [call_tool] invocations of a trace, as (name, arguments). *)
Fixpoint tool_calls (t : list Ev) : list (string * Json) :=
  match t with
  | [] => []
  | EvCallTool name arguments :: rest => (name, arguments) :: tool_calls rest
  | _ :: rest => tool_calls rest
  end.

(** The histories sent by the [messages.create] calls of a trace. *)
Fixpoint model_calls (t : list Ev) : list (list (Message Json ToolContent)) :=
  match t with
  | [] => []
  | EvMessagesCreate _ _ messages _ :: rest => messages :: model_calls rest
  | _ :: rest => model_calls rest
  end.

(** The number of [list_tools] calls of a trace. *)
Fixpoint catalog_fetches (t : list Ev) : nat :=
  match t with
  | [] => 0
  | EvListTools :: rest => S (catalog_fetches rest)
  | _ :: rest => catalog_fetches rest
  end.

(** The subprocess launches of a trace. *)
Fixpoint spawns (t : list Ev) : list StdioServerParameters :=
  match t with
  | [] => []
  | EvStdioClient p :: rest => p :: spawns rest
  | _ :: rest => spawns rest
  end.

(** The number of assistant messages of a history. *)
Definition assistant_messages (h : list (Message Json ToolContent)) : nat :=
  List.length (filter (fun m => match role m with assistant => true | user => false end) h).

(** A history ends with an assistant message whose last block is a
    [tool_use], answered by one [tool_result] carrying that block's id. *)
Definition answers_last_tool_use (h : list (Message Json ToolContent)) : Prop :=
  exists earlier blocks id name input c,
    h = (earlier ++
         [ {| role := assistant;
              content := ContentBlocks (blocks ++ [ToolUseBlock id name input]) |};
           {| role := user;
              content := ContentResults [ {| tool_use_id := id; result_content := c |} ] |} ])%list.

End Observers.

(** ** Runs of the scanning loop, as a relation

    What one block, and then a whole response, adds to the trace and does
    to the locals, whatever the environment answers.  [None] stands for a
    raised exception. *)

Section Runs.
Variable E : Env.
Local Open Scope list_scope.

Local Abbreviation Block := (ContentBlock (Json E)).
Local Abbreviation Ev := (Event (Json E) (ToolContent E)).
Local Abbreviation Params := (list (ToolParam (Json E))).

Definition with_text (l : Locals E) (content : Block) (text : string) : Locals E :=
  {| messages := messages l;
     final_text := final_text l ++ [text];
     assistant_message_content := assistant_message_content l ++ [content] |}.

Definition with_tool_use (l : Locals E) (id name : string) (input : Json E)
    (c : ToolContent E) : Locals E :=
  {| messages := messages l ++ [AssistantAlias; Literal (tool_result_message E id c)];
     final_text := final_text l ++ [calling_tool E name input];
     assistant_message_content :=
       assistant_message_content l ++ [ToolUseBlock id name input] |}.

Definition with_followup (l : Locals E) (text : string) : Locals E :=
  {| messages := messages l;
     final_text := final_text l ++ [text];
     assistant_message_content := assistant_message_content l |}.

Definition create_event (l : Locals E) (tools : Params) : Ev :=
  EvMessagesCreate MODEL MAX_TOKENS (snapshot l) tools.

Inductive block_run (tools : Params) (l : Locals E)
  : Block -> list Ev -> option (Locals E) -> Prop :=
| run_text text :
    block_run tools l (TextBlock text) [] (Some (with_text l (TextBlock text) text))
| run_other cls type :
    block_run tools l (OtherBlock cls type) [] (Some l)
| run_no_session id name input :
    block_run tools l (ToolUseBlock id name input) [] None
| run_tool_raised id name input :
    block_run tools l (ToolUseBlock id name input) [EvCallTool name input] None
| run_followup_raised id name input c :
    block_run tools l (ToolUseBlock id name input)
      [EvCallTool name input; create_event (with_tool_use l id name input c) tools]
      None
| run_tool_use id name input c text :
    block_run tools l (ToolUseBlock id name input)
      [EvCallTool name input; create_event (with_tool_use l id name input c) tools]
      (Some (with_followup (with_tool_use l id name input c) text)).

Inductive scan_run (tools : Params)
  : Locals E -> list Block -> list Ev -> option (Locals E) -> Prop :=
| scan_done l :
    scan_run tools l [] [] (Some l)
| scan_abort l content rest delta :
    block_run tools l content delta None ->
    scan_run tools l (content :: rest) delta None
| scan_next l content rest delta l' delta' r :
    block_run tools l content delta (Some l') ->
    scan_run tools l' rest delta' r ->
    scan_run tools l (content :: rest) (delta ++ delta') r.

(** The (name, input) pair a [tool_use] block asks [call_tool] for. *)
Definition request (u : string * string * Json E) : string * Json E :=
  let '(_, name, input) := u in (name, input).

(** The two messages one [tool_use] block commits to the history. *)
Definition committed (u : string * string * Json E) (c : ToolContent E)
  : list (MessageRef (Json E) (ToolContent E)) :=
  let '(id, _, _) := u in [AssistantAlias; Literal (tool_result_message E id c)].

Fixpoint commits (us : list (string * string * Json E)) (cs : list (ToolContent E))
  : list (MessageRef (Json E) (ToolContent E)) :=
  match us, cs with
  | u :: us', c :: cs' => committed u c ++ commits us' cs'
  | _, _ => []
  end.

(** The blocks the loop keeps in [assistant_message_content]. *)
Fixpoint kept (blocks : list Block) : list Block :=
  match blocks with
  | [] => []
  | OtherBlock _ _ :: rest => kept rest
  | b :: rest => b :: kept rest
  end.

(** The locals of [process_query] when the loop starts. *)
Definition initial (query : string) : Locals E :=
  {| messages := [Literal (user_message E query)];
     final_text := [];
     assistant_message_content := [] |}.

(** The state after a library call answered with world [w]. *)
Definition after (ev : Ev) (w : World E) (s : State E) : State E :=
  set_world w (log ev s).

(** The first [messages.create] call of a query. *)
Definition first_call (query : string) (tools : list (Tool (Json E))) : Ev :=
  EvMessagesCreate MODEL MAX_TOKENS [user_message E query] (map (to_param E) tools).

(** The transcript [process_query] returns. *)
Definition transcript (o : Outcome (Locals E)) : Outcome string :=
  match o with
  | Ok l => Ok (join LF (final_text l))
  | Raise e => Raise e
  | Running => Running
  end.

(** A computation that launches no subprocess. *)
Definition no_spawn {A} (c : M E A) : Prop :=
  forall s, exists delta,
    trace (snd (c s)) = trace s ++ delta /\ spawns delta = [].

(** [connect_to_server] launched the subprocess with [interpreter], once,
    as its first library call. *)
Definition launched_with (interpreter path : string) (s : State E) : Prop :=
  exists later,
    trace (snd (connect_to_server path s))
      = trace s ++ EvStdioClient {| command := interpreter; args := [path]; env := None |}
                :: later /\
    spawns later = [].

Definition returned {A} (o : Outcome A) : option A :=
  match o with Ok a => Some a | _ => None end.

(** What the loop leaves alone: the attributes of [self]. *)
Definition same_self (s s' : State E) : Prop :=
  self_session s' = self_session s /\
  self_stdio_write s' = self_stdio_write s /\
  exit_stack s' = exit_stack s.

End Runs.

Arguments returned {A} o.
Arguments no_spawn {E A} c.
Arguments launched_with {E} interpreter path s.
Arguments initial {E} query.
Arguments after {E} ev w s.
Arguments first_call {E} query tools.
Arguments transcript {E} o.
Arguments request {E} u.
Arguments committed {E} u c.
Arguments commits {E} us cs.
Arguments kept {E} blocks.

(** ** A scripted environment

    The model provider and the tool server answer from fixed scripts; this
    is the environment the concrete runs below use. *)

Module Scripted.

Record scripts : Type := {
  catalog : list (Tool string);
  model_replies : list (PyExc + list (ContentBlock string));
  tool_replies : list (PyExc + CallToolResult string);
  lines : list string;
  aclose_reply : PyExc + unit
}.

Definition pop_model (w : scripts) : (PyExc + list (ContentBlock string)) * scripts :=
  match model_replies w with
  | [] => (inl (LibraryError "APIConnectionError" "Connection error."), w)
  | r :: rest =>
      (r, {| catalog := catalog w; model_replies := rest;
             tool_replies := tool_replies w; lines := lines w;
             aclose_reply := aclose_reply w |})
  end.

Definition pop_tool (w : scripts) : (PyExc + CallToolResult string) * scripts :=
  match tool_replies w with
  | [] => (inl (LibraryError "McpError" "Connection closed"), w)
  | r :: rest =>
      (r, {| catalog := catalog w; model_replies := model_replies w;
             tool_replies := rest; lines := lines w;
             aclose_reply := aclose_reply w |})
  end.

Definition pop_line (w : scripts) : (PyExc + string) * scripts :=
  match lines w with
  | [] => (inl (EOFError "EOF when reading a line"), w)
  | r :: rest =>
      (inr r, {| catalog := catalog w; model_replies := model_replies w;
                 tool_replies := tool_replies w; lines := rest;
                 aclose_reply := aclose_reply w |})
  end.

(** ASCII letters [A]..[Z] are 010xxxxx with xxxxx from 1 to 26. *)
Definition lower_ascii (c : ascii) : ascii :=
  match c with
  | Ascii b0 b1 b2 b3 b4 false true false =>
      if (b0 || b1 || b2 || b3 || b4) && negb (b4 && b3 && (b2 || (b1 && b0)))
      then Ascii b0 b1 b2 b3 b4 true true false
      else c
  | _ => c
  end.

Fixpoint lower (s : string) : string :=
  match s with
  | EmptyString => EmptyString
  | String c s' => String (lower_ascii c) (lower s')
  end.

Definition E : Env :=
  {| Json := string;
     ToolContent := string;
     World := scripts;
     Transport := unit;
     Session := unit;
     Anthropic_new := fun w => (inr tt, w);
     stdio_client := fun _ w => (inr tt, w);
     ClientSession := fun _ w => (inr tt, w);
     session_initialize := fun _ w => (inr tt, w);
     session_list_tools := fun _ w => (inr (catalog w), w);
     session_call_tool := fun _ _ _ => pop_tool;
     messages_create := fun _ _ _ _ => pop_model;
     exit_stack_aclose := fun _ w => (aclose_reply w, w);
     builtin_input := fun _ => pop_line;
     str_json := fun j => j;
     repr_str := fun s => "'" ++ s ++ "'";
     str_strip := fun s => s;
     str_lower := lower |}.

(** A connected client in front of the given scripts. *)
Definition connected (w : scripts) : State E :=
  {| world := (w : World E); trace := []; self_session := Some tt;
     self_stdio_write := Some tt; exit_stack := [ResSession tt; ResTransport tt] |}.

(** A client object before [connect_to_server]. *)
Definition fresh (w : scripts) : State E :=
  {| world := (w : World E); trace := []; self_session := None;
     self_stdio_write := None; exit_stack := [] |}.

Definition lookup : Tool string :=
  {| tool_name := "lookup"; tool_description := Some "Look a value up";
     inputSchema := "{'type': 'object'}" |}.

Definition script (replies : list (PyExc + list (ContentBlock string)))
    (results : list (PyExc + CallToolResult string)) (input : list string) : scripts :=
  {| catalog := [lookup]; model_replies := replies; tool_replies := results;
     lines := input; aclose_reply := inr tt |}.

Definition tool_ok_result (c : string) : CallToolResult string :=
  {| call_content := c; isError := false |}.

Definition tool_ok (c : string) : PyExc + CallToolResult string :=
  inr (tool_ok_result c).

(** The scripts of the concrete runs. *)

Definition x1 : string := "{'x': 1}".
Definition x2 : string := "{'x': 2}".

(** One text block. *)
Definition hello : State E := connected (script [inr [TextBlock "Hello"]] [] []).

(** Two text blocks. *)
Definition two_texts : State E :=
  connected (script [inr [TextBlock "a"; TextBlock "b"]] [] []).

(** One tool call, answered by a text. *)
Definition one_tool_use : State E :=
  connected (script [inr [ToolUseBlock "tu_1" "lookup" x1];
                     inr [TextBlock "The answer is 42"]]
                    [tool_ok "42"] []).

(** The follow-up response asks for a second tool call. *)
Definition asks_again : State E :=
  connected (script [inr [ToolUseBlock "tu_1" "lookup" x1];
                     inr [TextBlock "Let me check"; ToolUseBlock "tu_2" "lookup" x2]]
                    [tool_ok "42"; tool_ok "43"] []).

(** As [asks_again], with a text after the second request. *)
Definition asks_again_then_text : State E :=
  connected (script [inr [ToolUseBlock "tu_1" "lookup" x1];
                     inr [TextBlock "One more"; ToolUseBlock "tu_2" "lookup" x2;
                          TextBlock "then"]]
                    [tool_ok "42"; tool_ok "43"] []).

(** Two tool calls in the first response. *)
Definition two_tool_uses : State E :=
  connected (script [inr [ToolUseBlock "tu_1" "lookup" x1;
                          ToolUseBlock "tu_2" "lookup" x2];
                     inr [TextBlock "one"]; inr [TextBlock "two"]]
                    [tool_ok "42"; tool_ok "43"] []).

(** The locals [two_tool_uses] ends with. *)
Definition two_commits : Locals E :=
  {| messages :=
       [Literal (user_message E "q");
        AssistantAlias; Literal (tool_result_message E "tu_1" "42");
        AssistantAlias; Literal (tool_result_message E "tu_2" "43")];
     final_text := [calling_tool E "lookup" x1; "one"; calling_tool E "lookup" x2; "two"];
     assistant_message_content :=
       [ToolUseBlock "tu_1" "lookup" x1; ToolUseBlock "tu_2" "lookup" x2] |}.

(** The follow-up to a tool call, read in the middle of the loop. *)
Definition answering : State E :=
  connected (script [inr [TextBlock "The answer is 42"; TextBlock "ignored"]]
                    [tool_ok "42"] []).

Definition answering_nothing : State E :=
  connected (script [inr []] [tool_ok "42"] []).

(** The tool call of a query fails; three lines wait on the console. *)
Definition tool_failed : PyExc := LibraryError "McpError" "tool failed".

Definition tool_fails : State E :=
  connected (script [inr [ToolUseBlock "tu_1" "lookup" x1]; inr [TextBlock "Hello"]]
                    [inl tool_failed]
                    ["weather?"; "hi"; "quit"]).

(** Closing the exit stack fails. *)
Definition close_fails : PyExc :=
  LibraryError "RuntimeError" "Attempted to exit cancel scope in a different task".

Definition leaving : State E :=
  fresh {| catalog := [lookup]; model_replies := []; tool_replies := [];
           lines := ["quit"]; aclose_reply := inl close_fails |}.

Definition argv : list string := ["client.py"; "server.py"].

(** The states [tool_fails] goes through in one pass of the loop: the first
    line is read, the error of the pass is printed. *)
Definition asked : State E :=
  after (E:=E) (EvInput (LF ++ "Query: ")) (snd (pop_line (world tool_fails))) tool_fails.

Definition reported : State E :=
  log (EvPrint (LF ++ "Error: 'MCPClient' object has no attribute 'process_query'")) asked.

(** A connected client whose exit stack fails to close. *)
Definition held : State E :=
  connected {| catalog := [lookup]; model_replies := []; tool_replies := [];
               lines := []; aclose_reply := inl close_fails |}.

(** [leaving] once the client is built. *)
Definition built : State E := snd (MCPClient_init leaving).

End Scripted.

(** ** Further observers of traces and runs *)

Section Kinds.
Variables Json ToolContent : Type.

Local Abbreviation Ev := (Event Json ToolContent).

(** The calls [process_query] makes: on the session and on the model. *)
Definition is_query_event (ev : Ev) : bool :=
  match ev with
  | EvListTools | EvMessagesCreate _ _ _ _ | EvCallTool _ _ => true
  | _ => false
  end.

(** The calls on the console: [input] and [print]. *)
Definition is_console_event (ev : Ev) : bool :=
  match ev with
  | EvInput _ | EvPrint _ => true
  | _ => false
  end.

(** The model, token limit and tools of the [messages.create] calls. *)
Fixpoint create_params (t : list Ev) : list (string * nat * list (ToolParam Json)) :=
  match t with
  | [] => []
  | EvMessagesCreate model max_tokens _ tools :: rest =>
      (model, max_tokens, tools) :: create_params rest
  | _ :: rest => create_params rest
  end.

(** The roles of a history with [n] committed tool calls: the user's
    query, then an assistant message and a user message per call. *)
Fixpoint turns (n : nat) : list Role :=
  match n with
  | O => [user]
  | S k => (turns k ++ [assistant; user])%list
  end.

(** The role of the message a history element stands for. *)
Definition ref_role (r : MessageRef Json ToolContent) : Role :=
  match r with
  | Literal m => role m
  | AssistantAlias => assistant
  end.

(** All assistant messages of a history hold the blocks [buffer]. *)
Definition assistants_hold (buffer : list (ContentBlock Json))
    (h : list (Message Json ToolContent)) : Prop :=
  Forall (fun m => role m = assistant -> content m = ContentBlocks buffer) h.

End Kinds.

Arguments is_query_event {Json ToolContent} ev.
Arguments is_console_event {Json ToolContent} ev.
Arguments create_params {Json ToolContent} t.
Arguments ref_role {Json ToolContent} r.
Arguments assistants_hold {Json ToolContent} buffer h.

Section MoreRuns.
Variable E : Env.
Local Open Scope list_scope.

Local Abbreviation Block := (ContentBlock (Json E)).
Local Abbreviation Ev := (Event (Json E) (ToolContent E)).

(** A computation all of whose library calls satisfy [allowed]. *)
Definition emits {A} (allowed : Ev -> bool) (c : M E A) : Prop :=
  forall s, exists delta,
    trace (snd (c s)) = trace s ++ delta /\ forallb allowed delta = true.

(** The lines of the transcript for the blocks of the first response,
    given the first texts of the follow-up responses. *)
Fixpoint transcript_lines (blocks : list Block) (followups : list string)
  : list string :=
  match blocks with
  | [] => []
  | TextBlock text :: rest => text :: transcript_lines rest followups
  | ToolUseBlock _ name input :: rest =>
      match followups with
      | [] => []
      | answer :: later =>
          calling_tool E name input :: answer :: transcript_lines rest later
      end
  | OtherBlock _ _ :: rest => transcript_lines rest followups
  end.

(** [answer] is the text of the first block of a response the model gave
    to the history [sent] and the tools [tools]. *)
Definition answered_with (tools : list (ToolParam (Json E)))
    (sent : list (Message (Json E) (ToolContent E))) (answer : string) : Prop :=
  exists w rest w',
    messages_create E MODEL MAX_TOKENS sent tools w = (inr (TextBlock answer :: rest), w').

(** Every message of the list [messages] that is not the shared
    assistant dict is a user message. *)
Definition literals_are_users (l : Locals E) : Prop :=
  Forall (fun r => ref_role r = assistant -> r = AssistantAlias) (messages l).

(** The prompt of [input]. *)
Definition PROMPT : string := (LF ++ "Query: ")%string.

(** The parameters [connect_to_server] launches the server with. *)
Definition server_parameters (path : string) : StdioServerParameters :=
  {| command := if endswith path ".py" then "python"%string else "node"%string;
     args := [path]; env := None |}.

(** What [connect_to_server] prints for the tools found. *)
Definition connected_text (tools : list (Tool (Json E))) : string :=
  (LF ++ "Connected to server with tools:" ++ " "
      ++ repr_list E (map (@tool_name _) tools))%string.

(** The library calls of a complete [connect_to_server], in order. *)
Definition connect_calls (path : string) (tools : list (Tool (Json E))) : list Ev :=
  [EvStdioClient (server_parameters path); EvClientSession; EvInitialize;
   EvListTools; EvPrint (connected_text tools)].

(** [exit_stack.enter_async_context] succeeded: the resource is on top. *)
Definition push (r : Resource (Transport E) (Session E)) (s : State E) : State E :=
  {| world := world s; trace := trace s; self_session := self_session s;
     self_stdio_write := self_stdio_write s; exit_stack := r :: exit_stack s |}.

Definition with_stdio_write (t : Transport E) (s : State E) : State E :=
  {| world := world s; trace := trace s; self_session := self_session s;
     self_stdio_write := Some t; exit_stack := exit_stack s |}.

Definition with_session (h : Session E) (s : State E) : State E :=
  {| world := world s; trace := trace s; self_session := Some h;
     self_stdio_write := self_stdio_write s; exit_stack := exit_stack s |}.

(** The client object [MCPClient()] starts from. *)
Definition blank (s : State E) : State E :=
  {| world := world s; trace := trace s; self_session := None;
     self_stdio_write := None; exit_stack := [] |}.

(** The exit stack was handed to [aclose]. *)
Definition emptied (s : State E) : State E :=
  {| world := world s; trace := trace s; self_session := self_session s;
     self_stdio_write := self_stdio_write s; exit_stack := [] |}.

End MoreRuns.

Arguments emits {E A} allowed c.
Arguments literals_are_users {E} l.
Arguments transcript_lines {E} blocks followups.
Arguments answered_with {E} tools sent answer.
Arguments connected_text {E} tools.
Arguments connect_calls {E} path tools.
Arguments push {E} r s.
Arguments with_stdio_write {E} t s.
Arguments with_session {E} h s.
Arguments blank {E} s.
Arguments emptied {E} s.

(** ** The helpers of the weather server ([weather.py]) *)

Definition NWS_API_BASE : string := "https://api.weather.gov".
Definition USER_AGENT : string := "weather-app/1.0".

(** The [timeout=30.0] of the request, in seconds. *)
Definition TIMEOUT : nat := 30.

(** *** Python values

    The values decoded from JSON, as far as the helpers look into them. *)

#[local] Set Warnings "-register-all".

(** A value that is neither [None], a str nor a dict is kept by its class
    and its [str]. *)
Inductive PyValue : Type :=
| PyNone
| PyStr (s : string)
| PyDict (items : list (string * PyValue))
| PyOther (class_name text : string).

(** *** [make_nws_request] *)

(** The calls [make_nws_request] makes on httpx. *)
Inductive HttpEvent : Type :=
| HvOpen
| HvGet (url : string) (headers : list (string * string)) (timeout : nat)
| HvRaiseForStatus
| HvJson
| HvClose.

(** httpx, as [make_nws_request] uses it.  [AsyncClient_exit] is the
    client's [__aexit__], which does not suppress exceptions.
    [response_json] is [response.json()]: the value the body decodes to,
    [None] for the body [null]. *)
Record Http : Type := {
  HWorld : Type;
  HClient : Type;
  HResponse : Type;
  AsyncClient_enter : Raises HWorld HClient;
  client_get : HClient -> string -> list (string * string) -> nat ->
               Raises HWorld HResponse;
  raise_for_status : HResponse -> Raises HWorld unit;
  response_json : HResponse -> Raises HWorld PyValue;
  AsyncClient_exit : HClient -> Raises HWorld unit
}.

Section Request.
Variable H : Http.

Record HttpState : Type := {
  hworld : HWorld H;
  htrace : list HttpEvent
}.

Definition HM (A : Type) : Type := HttpState -> (PyExc + A) * HttpState.

Definition hret {A} (a : A) : HM A := fun s => (inr a, s).

Definition hbind {A B} (c : HM A) (k : A -> HM B) : HM B :=
  fun s =>
    match c s with
    | (inr a, s') => k a s'
    | (inl e, s') => (inl e, s')
    end.

Definition hcall {A} (ev : HttpEvent) (op : Raises (HWorld H) A) : HM A :=
  fun s =>
    let '(r, w) := op (hworld s) in
    (r, {| hworld := w; htrace := htrace s ++ [ev] |}).

(** [try: body  except Exception: handler]. *)
Definition htry_except {A} (body : HM A) (handler : HM A) : HM A :=
  fun s =>
    match body s with
    | (inl e, s') => if is_Exception e then handler s' else (inl e, s')
    | r => r
    end.

(** [async with httpx.AsyncClient() as client: body]: the client is
    closed when the body returns and when it raises; an exception of the
    body is raised again after the close, one of the close replaces it. *)
Definition async_with_client {A} (body : HClient H -> HM A) : HM A :=
  fun s =>
    match hcall HvOpen (AsyncClient_enter H) s with
    | (inl e, s1) => (inl e, s1)
    | (inr client, s1) =>
        let '(r, s2) := body client s1 in
        match hcall HvClose (AsyncClient_exit H client) s2 with
        | (inl e, s3) => (inl e, s3)
        | (inr _, s3) => (r, s3)
        end
    end.

Definition request_headers : list (string * string) :=
  [("User-Agent", USER_AGENT); ("Accept", "application/geo+json")].

(** The function returns what [response.json()] returns, and [None] from
    the [except] clause. *)
Definition make_nws_request (url : string) : HM PyValue :=
  let headers := request_headers in
  async_with_client (fun client =>
    htry_except
      (hbind (hcall (HvGet url headers TIMEOUT)
                    (client_get H client url headers TIMEOUT)) (fun response =>
       hbind (hcall HvRaiseForStatus (raise_for_status H response)) (fun _ =>
       hcall HvJson (response_json H response))))
      (hret PyNone)).

(** The calls of a request that got through: the GET, the status check
    and the decoding, one after the other. *)
Definition request_calls (url : string) : list HttpEvent :=
  [HvGet url request_headers TIMEOUT; HvRaiseForStatus; HvJson].

End Request.

Arguments hret {H A} a.
Arguments make_nws_request {H} url.

(** *** [format_alert] *)

(** [d.get(key)] on the items of a dict. *)
Fixpoint dict_get (key : string) (items : list (string * PyValue)) : option PyValue :=
  match items with
  | [] => None
  | (k, v) :: rest => if String.eqb k key then Some v else dict_get key rest
  end.

Definition class_of (v : PyValue) : string :=
  match v with
  | PyNone => "NoneType"
  | PyStr _ => "str"
  | PyDict _ => "dict"
  | PyOther cls _ => cls
  end.

(** How [format_alert] fails: [feature["properties"]] on a missing key,
    or [props.get] on a value that is no dict. *)
Inductive AlertError : Type :=
| KeyError (key : string)
| NoAttributeGet (class_name : string).

Section Alert.
(** [str] of a dict, which an f-string shows for a dict value. *)
Variable str_dict : list (string * PyValue) -> string.

(** What an f-string shows for a value. *)
Definition str_value (v : PyValue) : string :=
  match v with
  | PyNone => "None"
  | PyStr s => s
  | PyDict items => str_dict items
  | PyOther _ text => text
  end.

(** [props.get(key, default)], as shown by the f-string. *)
Definition shown (props : list (string * PyValue)) (key default : string) : string :=
  match dict_get key props with
  | Some v => str_value v
  | None => default
  end.

Definition format_alert (feature : list (string * PyValue)) : AlertError + string :=
  match dict_get "properties" feature with
  | None => inl (KeyError "properties")
  | Some (PyDict props) =>
      inr (LF ++ "Event: " ++ shown props "event" "Unknown" ++ LF
              ++ "Area: " ++ shown props "areaDesc" "Unknown" ++ LF
              ++ "Severity: " ++ shown props "severity" "Unknown" ++ LF
              ++ "Description: "
              ++ shown props "description" "No description available" ++ LF
              ++ "Instructions: "
              ++ shown props "instruction" "No specific instructions provided" ++ LF)
  | Some v => inl (NoAttributeGet (class_of v))
  end.

(** The keys [format_alert] reads. *)
Definition alert_keys : list string :=
  ["event"; "areaDesc"; "severity"; "description"; "instruction"].

End Alert.

(** A scripted httpx: each call answers from the script. *)
Module ScriptedHttp.

Record replies : Type := {
  get_reply : PyExc + string;
  status_reply : PyExc + unit;
  json_reply : PyExc + PyValue
}.

Definition H : Http :=
  {| HWorld := replies;
     HClient := unit;
     HResponse := string;
     AsyncClient_enter := fun w => (inr tt, w);
     client_get := fun _ _ _ _ w => (get_reply w, w);
     raise_for_status := fun _ w => (status_reply w, w);
     response_json := fun _ w => (json_reply w, w);
     AsyncClient_exit := fun _ w => (inr tt, w) |}.

Definition start (w : replies) : HttpState H := {| hworld := (w : HWorld H); htrace := [] |}.

(** No alert is active. *)
Definition no_features : PyValue := PyDict [("features", PyOther "list" "[]")].

(** The server answers 200 with a body that decodes. *)
Definition answers : HttpState H :=
  start {| get_reply := inr "response"; status_reply := inr tt;
           json_reply := inr no_features |}.

(** The server answers 200 with the body [null]. *)
Definition answers_null : HttpState H :=
  start {| get_reply := inr "response"; status_reply := inr tt;
           json_reply := inr PyNone |}.

(** The server answers 404. *)
Definition not_found : HttpState H :=
  start {| get_reply := inr "response";
           status_reply := inl (LibraryError "HTTPStatusError" "404 Not Found");
           json_reply := inr (PyDict []) |}.

(** The request is interrupted from the keyboard. *)
Definition interrupted : HttpState H :=
  start {| get_reply := inl KeyboardInterrupt; status_reply := inr tt;
           json_reply := inr (PyDict []) |}.

Definition alerts_url : string := NWS_API_BASE ++ "/alerts/active/area/CA".

(** An alert whose [instruction] is null and which has no [severity]. *)
Definition flood : list (string * PyValue) :=
  [("type", PyStr "Feature");
   ("properties",
    PyDict [("event", PyStr "Flood Warning");
            ("areaDesc", PyStr "Napa");
            ("description", PyStr "River rising");
            ("instruction", PyNone)])].

(** The same alert with further properties and another order. *)
Definition flood_verbose : list (string * PyValue) :=
  [("id", PyStr "urn:oid:1");
   ("properties",
    PyDict [("sent", PyStr "2024-01-01");
            ("instruction", PyNone);
            ("description", PyStr "River rising");
            ("areaDesc", PyStr "Napa");
            ("event", PyStr "Flood Warning")])].

(** An alert without [instruction]. *)
Definition frost : list (string * PyValue) :=
  [("properties", PyDict [("event", PyStr "Frost Advisory")])].

Definition show_dict (items : list (string * PyValue)) : string := "{...}".

End ScriptedHttp.

(** Further scripts for the client. *)
Module MoreScripted.
Import Scripted.

(** The input has ended. *)
Definition at_eof : State E := connected (script [] [] []).

Definition no_lines (w : World E) : Prop := lines (w : scripts) = [].

(** The user quits at the first prompt. *)
Definition quitting : State E := connected (script [] [] ["quit"]).

(** The answer to two tool calls. *)
Definition two_answers : string :=
  "[Calling tool lookup with args {'x': 1}]" ++ LF ++ "one" ++ LF ++
  "[Calling tool lookup with args {'x': 2}]" ++ LF ++ "two".

(** An environment without credentials: [Anthropic()] raises. *)
Definition no_api_key : PyExc :=
  LibraryError "AnthropicError" "The api_key client option must be set".

Definition E_no_key : Env :=
  {| Json := string;
     ToolContent := string;
     World := scripts;
     Transport := unit;
     Session := unit;
     Anthropic_new := fun w => (inl no_api_key, w);
     stdio_client := fun _ w => (inr tt, w);
     ClientSession := fun _ w => (inr tt, w);
     session_initialize := fun _ w => (inr tt, w);
     session_list_tools := fun _ w => (inr (catalog w), w);
     session_call_tool := fun _ _ _ => pop_tool;
     messages_create := fun _ _ _ _ => pop_model;
     exit_stack_aclose := fun _ w => (aclose_reply w, w);
     builtin_input := fun _ => pop_line;
     str_json := fun j => j;
     repr_str := fun s => "'" ++ s ++ "'";
     str_strip := fun s => s;
     str_lower := lower |}.

Definition without_key : State E_no_key :=
  {| world := (script [] [] [] : World E_no_key); trace := []; self_session := None;
     self_stdio_write := None; exit_stack := [] |}.

(** A console where the user presses Ctrl-C at the prompt. *)
Definition E_ctrl_c : Env :=
  {| Json := string;
     ToolContent := string;
     World := scripts;
     Transport := unit;
     Session := unit;
     Anthropic_new := fun w => (inr tt, w);
     stdio_client := fun _ w => (inr tt, w);
     ClientSession := fun _ w => (inr tt, w);
     session_initialize := fun _ w => (inr tt, w);
     session_list_tools := fun _ w => (inr (catalog w), w);
     session_call_tool := fun _ _ _ => pop_tool;
     messages_create := fun _ _ _ _ => pop_model;
     exit_stack_aclose := fun _ w => (aclose_reply w, w);
     builtin_input := fun _ w => (inl KeyboardInterrupt, w);
     str_json := fun j => j;
     repr_str := fun s => "'" ++ s ++ "'";
     str_strip := fun s => s;
     str_lower := lower |}.

Definition interrupted : State E_ctrl_c :=
  {| world := (script [] [] [] : World E_ctrl_c); trace := [];
     self_session := Some tt; self_stdio_write := Some tt;
     exit_stack := [ResSession tt; ResTransport tt] |}.

End MoreScripted.

(** ** Properties *)

Section Properties.
Variable E : Env.
Local Open Scope list_scope.

Local Abbreviation Block := (ContentBlock (Json E)).
Local Abbreviation Ev := (Event (Json E) (ToolContent E)).
Local Abbreviation Params := (list (ToolParam (Json E))).

(** Closing the routine parts of a statement about a run. *)
Ltac run_parts :=
  split; [cbn; try rewrite app_nil_r; try rewrite <- app_assoc; reflexivity |];
  split; [now repeat split |];
  split; [discriminate |].

(** *** Strings *)

Lemma endswith_spec (s suffix : string) :
  endswith s suffix = true <-> exists prefix, s = (prefix ++ suffix)%string.
Proof.
  induction s as [|c s IH]; cbn [endswith].
  - rewrite orb_false_r, String.eqb_eq. split.
    + intros <-. now exists ""%string.
    + intros [[|c p] H]; simpl in H; [now subst | discriminate].
  - rewrite orb_true_iff, String.eqb_eq, IH. split.
    + intros [<- | [p ->]]; [now exists ""%string | now exists (String c p)].
    + intros [[|c' p] H]; simpl in H.
      * now left.
      * right. exists p. now inversion H.
Qed.

Lemma py_is_not_js (s : string) :
  endswith s ".py" = true -> endswith s ".js" = false.
Proof.
  induction s as [|c s IH]; cbn [endswith]; [discriminate|].
  rewrite orb_true_iff, orb_false_iff. intros [H | H].
  - apply String.eqb_eq in H. injection H as -> ->. now vm_compute.
  - split; [|now apply IH].
    apply String.eqb_neq. intros Hjs. injection Hjs as -> ->. now vm_compute in H.
Qed.

(** *** Library calls and the trace *)

Lemma same_self_refl (s : State E) : same_self s s.
Proof. now repeat split. Qed.

Lemma same_self_trans (s1 s2 s3 : State E) :
  same_self s1 s2 -> same_self s2 s3 -> same_self s1 s3.
Proof. unfold same_self. intuition congruence. Qed.

Lemma call_trace {A} (ev : Ev) (op : Raises (World E) A) (s : State E) :
  trace (snd (call ev op s)) = trace s ++ [ev] /\
  same_self s (snd (call ev op s)) /\
  fst (call ev op s) <> Running.
Proof.
  unfold call. destruct (op (world s)) as [[e|a] w]; simpl;
    (split; [reflexivity | split; [now repeat split | discriminate]]).
Qed.

Lemma trace_after (ev : Ev) (w : World E) (s : State E) :
  trace (after ev w s) = trace s ++ [ev].
Proof. reflexivity. Qed.

Lemma call_ok {A} (ev : Ev) (op : Raises (World E) A) (s : State E) a w :
  op (world s) = (inr a, w) -> call ev op s = (Ok a, set_world w (log ev s)).
Proof. unfold call. now intros ->. Qed.

Lemma call_raise {A} (ev : Ev) (op : Raises (World E) A) (s : State E) e w :
  op (world s) = (inl e, w) -> call ev op s = (Raise e, set_world w (log ev s)).
Proof. unfold call. now intros ->. Qed.

(** *** Inversion of the monad's operations *)

Lemma bind_inv {A B} (c : M E A) (k : A -> M E B) (s s' : State E) (o : Outcome B) :
  bind c k s = (o, s') ->
  (exists a s1, c s = (Ok a, s1) /\ k a s1 = (o, s')) \/
  (exists e, c s = (Raise e, s') /\ o = Raise e) \/
  (c s = (Running, s') /\ o = Running).
Proof.
  unfold bind. destruct (c s) as [[a | e |] s1]; intros H.
  - left. now exists a, s1.
  - right. left. exists e. now injection H as <- <-.
  - right. right. now injection H as <- <-.
Qed.

Lemma bind_ok {A B} (c : M E A) (k : A -> M E B) (s s1 : State E) (a : A) :
  c s = (Ok a, s1) -> bind c k s = k a s1.
Proof. unfold bind. now intros ->. Qed.

Lemma bind_raise {A B} (c : M E A) (k : A -> M E B) (s s1 : State E) (e : PyExc) :
  c s = (Raise e, s1) -> bind c k s = (Raise e, s1).
Proof. unfold bind. now intros ->. Qed.

Lemma call_inv {A} (ev : Ev) (op : Raises (World E) A) (s s' : State E)
    (o : Outcome A) :
  call ev op s = (o, s') ->
  exists w,
    s' = set_world w (log ev s) /\
    ((exists a, op (world s) = (inr a, w) /\ o = Ok a) \/
     (exists e, op (world s) = (inl e, w) /\ o = Raise e)).
Proof.
  unfold call. destruct (op (world s)) as [[e|a] w]; intros H;
    injection H as <- <-; exists w; split; trivial.
  - right. now exists e.
  - left. now exists a.
Qed.

Lemma get_session_inv (method : string) (s s' : State E) (o : Outcome (Session E)) :
  get_session method s = (o, s') ->
  s' = s /\
  ((exists h, self_session s = Some h /\ o = Ok h) \/
   (self_session s = None /\ exists e, o = Raise e)).
Proof.
  unfold get_session. destruct (self_session s) as [h|]; intros H;
    injection H as <- <-; split; trivial.
  - left. now exists h.
  - right. split; trivial. now eexists.
Qed.

Lemma first_text_inv (response : list Block) (s s' : State E) (o : Outcome string) :
  first_text response s = (o, s') ->
  s' = s /\
  ((exists text rest, response = TextBlock text :: rest /\ o = Ok text) \/
   (exists e, o = Raise e)).
Proof.
  destruct response as [|[text | id name input | cls type] rest]; cbn;
    intros H; injection H as <- <-; split; trivial;
    try (right; now eexists).
  left. now exists text, rest.
Qed.

(** *** The loop meets its relation *)

Lemma scan_block_sound (tools : Params) (content : Block) (l : Locals E)
    (s s' : State E) (o : Outcome (Locals E)) :
  scan_block tools content l s = (o, s') ->
  exists delta,
    trace s' = trace s ++ delta /\
    same_self s s' /\
    o <> Running /\
    block_run tools l content delta (returned o).
Proof.
  destruct content as [text | id name input | cls type]; cbn [scan_block].
  - intros H. injection H as <- <-. exists []. run_parts. apply run_text.
  - intros H.
    apply bind_inv in H as [(h & s1 & Hg & H) | [(e & Hg & ->) | (Hg & ->)]];
      apply get_session_inv in Hg as [-> [(h' & Hs & Ho) | (Hs & e' & Ho)]];
      try discriminate.
    2: { exists []. run_parts. apply run_no_session. }
    apply bind_inv in H as [(res & s2 & Hc & H) | [(e & Hc & ->) | (Hc & ->)]];
      apply call_inv in Hc as (w1 & -> & [(res' & Hop & Ho') | (e' & Hop & Ho')]);
      try discriminate.
    2: { exists [EvCallTool name input]. run_parts. apply run_tool_raised. }
    injection Ho' as <-.
    apply bind_inv in H as [(r & s3 & Hm & H) | [(e & Hm & ->) | (Hm & ->)]];
      apply call_inv in Hm as (w2 & -> & [(r' & Hop2 & Ho2) | (e' & Hop2 & Ho2)]);
      try discriminate.
    2: { eexists [EvCallTool name input; _]. run_parts.
         apply (run_followup_raised tools l id name input (call_content res)). }
    injection Ho2 as <-.
    apply bind_inv in H as [(t & s4 & Hf & H) | [(e & Hf & ->) | (Hf & ->)]];
      apply first_text_inv in Hf as [-> [(t' & rest & -> & Ho3) | (e' & Ho3)]];
      try discriminate.
    2: { eexists [EvCallTool name input; _]. run_parts.
         apply (run_followup_raised tools l id name input (call_content res)). }
    injection H as <- <-.
    eexists [EvCallTool name input; _]. run_parts.
    apply (run_tool_use tools l id name input (call_content res) t).
  - intros H. injection H as <- <-. exists []. run_parts. apply run_other.
Qed.

Lemma scan_sound (tools : Params) (blocks : list Block) :
  forall (l : Locals E) (s s' : State E) (o : Outcome (Locals E)),
    scan tools blocks l s = (o, s') ->
    exists delta,
      trace s' = trace s ++ delta /\
      same_self s s' /\
      o <> Running /\
      scan_run tools l blocks delta (returned o).
Proof.
  induction blocks as [|content rest IH]; intros l s s' o H; cbn [scan] in H.
  - injection H as <- <-. exists []. run_parts. apply scan_done.
  - apply bind_inv in H as [(l1 & s1 & Hb & H) | [(e & Hb & ->) | (Hb & ->)]];
      apply scan_block_sound in Hb as (d1 & Ht1 & Hself1 & Hrun1 & Hb).
    + apply IH in H as (d2 & Ht2 & Hself2 & Hrun2 & H).
      exists (d1 ++ d2). rewrite Ht2, Ht1, app_assoc.
      split; trivial. split; [eapply same_self_trans; eassumption|].
      split; trivial. eapply scan_next; eassumption.
    + exists d1. repeat split; trivial; try apply Hself1; try discriminate.
      now apply scan_abort.
    + now contradiction Hrun1.
Qed.

(** *** Observers over concatenated traces *)

Lemma tool_calls_app (t1 t2 : list Ev) :
  tool_calls (t1 ++ t2) = tool_calls t1 ++ tool_calls t2.
Proof.
  induction t1 as [|ev t1 IH]; [reflexivity|].
  destruct ev; cbn; now rewrite ?IH.
Qed.

Lemma model_calls_app (t1 t2 : list Ev) :
  model_calls (t1 ++ t2) = model_calls t1 ++ model_calls t2.
Proof.
  induction t1 as [|ev t1 IH]; [reflexivity|].
  destruct ev; cbn; now rewrite ?IH.
Qed.

Lemma catalog_fetches_app (t1 t2 : list Ev) :
  catalog_fetches (t1 ++ t2) = catalog_fetches t1 + catalog_fetches t2.
Proof.
  induction t1 as [|ev t1 IH]; [reflexivity|].
  destruct ev; cbn; now rewrite ?IH.
Qed.

Lemma spawns_app (t1 t2 : list Ev) :
  spawns (t1 ++ t2) = spawns t1 ++ spawns t2.
Proof.
  induction t1 as [|ev t1 IH]; [reflexivity|].
  destruct ev; cbn; now rewrite ?IH.
Qed.

(** *** What one block does *)

Lemma block_run_quiet (tools : Params) (l : Locals E) content delta r :
  block_run tools l content delta r ->
  catalog_fetches delta = 0 /\ spawns delta = [].
Proof. intros H. now destruct H. Qed.

Lemma block_run_requests (tools : Params) (l : Locals E) content delta r :
  block_run tools l content delta r ->
  exists later,
    map request (tool_uses [content]) = tool_calls delta ++ later /\
    (r <> None -> later = []).
Proof.
  intros H. destruct H; cbn;
    try (exists []; split; [reflexivity | trivial]; fail).
  exists [(name, input)]. split; [reflexivity | now intros []].
Qed.

Lemma block_run_turns (tools : Params) (l : Locals E) content delta r :
  block_run tools l content delta r ->
  List.length (model_calls delta) <= List.length (tool_uses [content]) /\
  List.length (tool_calls delta) <= List.length (tool_uses [content]) /\
  (r <> None -> List.length (model_calls delta) = List.length (tool_uses [content])).
Proof.
  intros H. destruct H; cbn; repeat split; trivial; try lia; now intros [].
Qed.

Lemma snapshot_with_tool_use (l : Locals E) id name input c :
  snapshot (with_tool_use l id name input c) =
  map (deref (assistant_message_content l ++ [ToolUseBlock id name input])) (messages l)
  ++ [ {| role := assistant;
          content := ContentBlocks
                       (assistant_message_content l ++ [ToolUseBlock id name input]) |};
       tool_result_message E id c ].
Proof. unfold snapshot, with_tool_use. cbn. now rewrite map_app. Qed.

Lemma block_run_answers (tools : Params) (l : Locals E) content delta r :
  block_run tools l content delta r ->
  Forall (@answers_last_tool_use _ _) (model_calls delta).
Proof.
  intros H. destruct H; cbn [model_calls create_event];
    repeat apply Forall_cons; try apply Forall_nil;
    unfold answers_last_tool_use; rewrite snapshot_with_tool_use;
    now eexists _, _, id, name, input, c.
Qed.

Lemma block_run_locals (tools : Params) (l : Locals E) content delta l' :
  block_run tools l content delta (Some l') ->
  exists cs,
    List.length cs = List.length (tool_uses [content]) /\
    messages l' = messages l ++ commits (tool_uses [content]) cs /\
    assistant_message_content l' = assistant_message_content l ++ kept [content].
Proof.
  intros H. inversion H; subst;
    [exists [] | exists [] | exists [c]]; cbn; rewrite ?app_nil_r; auto.
Qed.

(** *** What a whole response does *)

Lemma tool_uses_cons (content : Block) (rest : list Block) :
  tool_uses (content :: rest) = tool_uses [content] ++ tool_uses rest.
Proof. now destruct content. Qed.

Lemma kept_cons (content : Block) (rest : list Block) :
  kept (content :: rest) = kept [content] ++ kept rest.
Proof. now destruct content. Qed.

Lemma commits_app (us1 us2 : list (string * string * Json E))
    (cs1 cs2 : list (ToolContent E)) :
  List.length cs1 = List.length us1 ->
  commits (us1 ++ us2) (cs1 ++ cs2) = commits us1 cs1 ++ commits us2 cs2.
Proof.
  revert cs1. induction us1 as [|u us1 IH]; intros [|c cs1] Hlen;
    try discriminate; [reflexivity|].
  cbn [commits app]. rewrite IH by (cbn in Hlen; lia). now rewrite app_assoc.
Qed.

Lemma scan_run_quiet (tools : Params) (l : Locals E) blocks delta r :
  scan_run tools l blocks delta r ->
  catalog_fetches delta = 0 /\ spawns delta = [].
Proof.
  induction 1 as [l | l content rest delta Hb
                 | l content rest delta l' delta' r Hb _ [IHf IHs]].
  - now split.
  - eapply block_run_quiet, Hb.
  - apply block_run_quiet in Hb as [Hf Hs].
    now rewrite catalog_fetches_app, spawns_app, Hf, Hs, IHf, IHs.
Qed.

Lemma scan_run_requests (tools : Params) (l : Locals E) blocks delta r :
  scan_run tools l blocks delta r ->
  exists later,
    map request (tool_uses blocks) = tool_calls delta ++ later /\
    (r <> None -> later = []).
Proof.
  induction 1 as [l | l content rest delta Hb
                 | l content rest delta l' delta' r Hb _ (later & IH & IHr)];
    try rewrite tool_uses_cons, map_app.
  - exists []. now split.
  - apply block_run_requests in Hb as (later & -> & _).
    exists (later ++ map request (tool_uses rest)).
    split; [now rewrite app_assoc | now intros []].
  - apply block_run_requests in Hb as (now & -> & Hnow).
    rewrite (Hnow ltac:(discriminate)), app_nil_r, IH, tool_calls_app.
    exists later. now rewrite app_assoc.
Qed.

Lemma scan_run_turns (tools : Params) (l : Locals E) blocks delta r :
  scan_run tools l blocks delta r ->
  List.length (model_calls delta) <= List.length (tool_uses blocks) /\
  List.length (tool_calls delta) <= List.length (tool_uses blocks) /\
  (r <> None -> List.length (model_calls delta) = List.length (tool_uses blocks)).
Proof.
  induction 1 as [l | l content rest delta Hb
                 | l content rest delta l' delta' r Hb _ (IHm & IHt & IHr)];
    try rewrite tool_uses_cons, length_app.
  - cbn. repeat split; trivial.
  - apply block_run_turns in Hb as (Hm & Ht & _).
    repeat split; try lia. now intros [].
  - apply block_run_turns in Hb as (Hm & Ht & Hr).
    specialize (Hr ltac:(discriminate)).
    rewrite model_calls_app, tool_calls_app, !length_app.
    repeat split; try lia. intros Hret. specialize (IHr Hret). lia.
Qed.

Lemma scan_run_answers (tools : Params) (l : Locals E) blocks delta r :
  scan_run tools l blocks delta r ->
  Forall (@answers_last_tool_use _ _) (model_calls delta).
Proof.
  induction 1 as [l | l content rest delta Hb
                 | l content rest delta l' delta' r Hb _ IH].
  - constructor.
  - eapply block_run_answers, Hb.
  - rewrite model_calls_app. apply Forall_app. split; trivial.
    eapply block_run_answers, Hb.
Qed.

Lemma scan_run_locals (tools : Params) (l : Locals E) blocks delta r :
  scan_run tools l blocks delta r ->
  forall l', r = Some l' ->
  exists cs,
    List.length cs = List.length (tool_uses blocks) /\
    messages l' = messages l ++ commits (tool_uses blocks) cs /\
    assistant_message_content l' = assistant_message_content l ++ kept blocks.
Proof.
  induction 1 as [l | l content rest delta Hb
                 | l content rest delta l1 delta' r Hb _ IH]; intros l' Hr.
  - injection Hr as <-. exists []. cbn. now rewrite !app_nil_r.
  - discriminate.
  - apply block_run_locals in Hb as (cs1 & Hlen1 & Hm1 & Ha1).
    destruct (IH l' Hr) as (cs2 & Hlen2 & Hm2 & Ha2).
    exists (cs1 ++ cs2). rewrite tool_uses_cons, kept_cons, !length_app.
    rewrite commits_app by trivial.
    rewrite Hm2, Hm1, Ha2, Ha1, !app_assoc. repeat split. lia.
Qed.

(** *** [process_query] as a run of the loop *)

Lemma process_query_transcript (query : string) (s : State E) :
  process_query query s =
  (transcript (fst (orchestrate query s)), snd (orchestrate query s)).
Proof.
  unfold process_query, bind. now destruct (orchestrate query s) as [[l | e |] s'].
Qed.

Lemma orchestrate_scan (query : string) (s : State E) h tools w1 response w2 :
  self_session s = Some h ->
  session_list_tools E h (world s) = (inr tools, w1) ->
  messages_create E MODEL MAX_TOKENS [user_message E query] (map (to_param E) tools) w1
    = (inr response, w2) ->
  orchestrate query s =
  scan (map (to_param E) tools) response (initial query)
       (after (first_call query tools) w2 (after EvListTools w1 s)).
Proof.
  intros Hs Hl Hm. unfold orchestrate, bind, get_session. rewrite Hs.
  rewrite (call_ok _ _ _ Hl). unfold anthropic_create.
  now rewrite (call_ok _ _ (set_world w1 (log EvListTools s)) Hm).
Qed.

Lemma orchestrate_trace (query : string) (s s' : State E) (o : Outcome (Locals E)) :
  orchestrate query s = (o, s') ->
  o <> Running /\ same_self s s' /\
  ((self_session s = None /\ s' = s /\ exists e, o = Raise e) \/
   exists h calls,
     self_session s = Some h /\
     trace s' = trace s ++ EvListTools :: calls /\
     catalog_fetches calls = 0 /\
     Forall (fun sent => sent = [user_message E query] \/ answers_last_tool_use sent)
            (model_calls calls) /\
     match session_list_tools E h (world s) with
     | (inl e, _) => calls = [] /\ o = Raise e
     | (inr tools, _) => exists later, calls = first_call query tools :: later
     end).
Proof.
  intros H. unfold orchestrate in H.
  apply bind_inv in H as [(h & s1 & Hg & H) | [(e & Hg & ->) | (Hg & ->)]];
    apply get_session_inv in Hg as [-> [(h' & Hs & Ho) | (Hs & e' & Ho)]];
    try discriminate.
  2: { injection Ho as ->. split; [discriminate|]. split; [apply same_self_refl|].
       left. repeat split; trivial. now exists e'. }
  injection Ho as <-.
  apply bind_inv in H as [(tools & s2 & Hc & H) | [(e & Hc & ->) | (Hc & ->)]];
    apply call_inv in Hc as (w1 & -> & [(tools' & Hop & Ho') | (e' & Hop & Ho')]);
    try discriminate.
  2: { injection Ho' as ->. split; [discriminate|]. split; [now repeat split|].
       right. exists h, []. rewrite Hop. repeat split; trivial. }
  injection Ho' as <-.
  apply bind_inv in H as [(r & s3 & Hm & H) | [(e & Hm & ->) | (Hm & ->)]];
    apply call_inv in Hm as (w2 & -> & [(r' & Hop2 & Ho2) | (e' & Hop2 & Ho2)]);
    try discriminate.
  2: { split; [discriminate|]. split; [now repeat split|].
       right. exists h, [first_call query tools]. rewrite Hop.
       repeat split; trivial.
       - cbn. now rewrite <- app_assoc.
       - cbn. constructor; [now left | constructor].
       - now exists []. }
  injection Ho2 as <-.
  apply scan_sound in H as (delta & Ht & Hself & Hrun & H).
  split; trivial. split; [destruct Hself as (? & ? & ?); now repeat split|].
  right. exists h, (first_call query tools :: delta). rewrite Hop.
  split; trivial. split; [rewrite Ht; cbn; now rewrite <- !app_assoc|].
  split; [cbn; eapply scan_run_quiet, H|].
  split; [|now exists delta].
  cbn. constructor; [now left|].
  eapply Forall_impl; [|eapply scan_run_answers, H]. intros sent Hsent. now right.
Qed.

Lemma scan_without_tool_use (tools : Params) (blocks : list Block) :
  forall (l : Locals E) (s : State E),
    tool_uses blocks = [] ->
    scan tools blocks l s =
    (Ok {| messages := messages l;
           final_text := final_text l ++ texts blocks;
           assistant_message_content := assistant_message_content l ++ kept blocks |},
     s).
Proof.
  induction blocks as [|[text | id name input | cls type] rest IH];
    intros [ms ft amc] s Hnone; cbn [scan scan_block tool_uses texts kept] in *.
  - now rewrite !app_nil_r.
  - unfold bind, ret. rewrite IH by trivial. cbn. now rewrite <- !app_assoc.
  - discriminate.
  - unfold bind, ret. now rewrite IH.
Qed.

(** *** The claims about [process_query] *)

(** C6: every invocation of [process_query] on a connected client fetches
    the tool catalog exactly once, as its first library call and before
    any model call; no later call of the invocation fetches it again.  The
    first model call, when the fetch succeeded, carries a history of
    exactly one user message holding the raw query text, whatever state
    earlier invocations left behind, together with the adapted catalog. *)
Theorem process_query_fresh_history (query : string) (s : State E) (h : Session E) :
  self_session s = Some h ->
  exists calls,
    trace (snd (process_query query s)) = trace s ++ EvListTools :: calls /\
    catalog_fetches (EvListTools :: calls) = 1 /\
    match session_list_tools E h (world s) with
    | (inl e, _) => calls = [] /\ fst (process_query query s) = Raise e
    | (inr tools, _) =>
        exists later,
          calls = EvMessagesCreate MODEL MAX_TOKENS
                    [ {| role := user; content := ContentText query |} ]
                    (map (to_param E) tools) :: later
    end.
Proof.
  intros Hs. rewrite process_query_transcript. cbn [fst snd].
  destruct (orchestrate query s) as [o s'] eqn:Ho.
  apply orchestrate_trace in Ho as (_ & _ & [(Hnone & _) | Hrun]); [congruence|].
  destruct Hrun as (h' & calls & Hs' & Ht & Hf & _ & Hshape).
  assert (h' = h) as -> by congruence.
  exists calls. cbn [fst snd catalog_fetches]. rewrite Hf. repeat split; trivial.
  destruct (session_list_tools E h (world s)) as [[e|tools] w1]; trivial.
  destruct Hshape as [-> ->]. now split.
Qed.


(** C3, as amended: when the first model response has no [tool_use]
    block, [process_query] makes exactly one model call and no tool call,
    and returns the texts of that response's text blocks joined by line
    feeds. *)
Theorem text_only_response (query : string) (s : State E) h tools w1 response w2 :
  self_session s = Some h ->
  session_list_tools E h (world s) = (inr tools, w1) ->
  messages_create E MODEL MAX_TOKENS [user_message E query] (map (to_param E) tools) w1
    = (inr response, w2) ->
  tool_uses response = [] ->
  exists s',
    process_query query s = (Ok (join LF (texts response)), s') /\
    trace s' = trace s ++ [EvListTools; first_call query tools] /\
    List.length (model_calls [EvListTools; first_call query tools]) = 1 /\
    tool_calls [EvListTools; first_call query tools] = [].
Proof.
  intros Hs Hl Hm Hnone.
  rewrite process_query_transcript, (orchestrate_scan _ _ Hs Hl Hm).
  rewrite scan_without_tool_use by trivial. cbn [fst snd transcript initial final_text app].
  eexists. split; [reflexivity|]. rewrite !trace_after, <- app_assoc. now repeat split.
Qed.

(** C10: when a [tool_use] block is executed and the model answers the
    committed [tool_result], only the first block of that follow-up
    response is read, as a text block: its text is appended to the
    transcript and the loop goes on with the first response, whatever
    follows in the follow-up; an empty follow-up raises IndexError and a
    first block that is not a text block raises AttributeError, which ends
    the loop and [process_query]. *)
Theorem followup_read_as_first_text (tools : Params) id name input
    (rest : list Block) (l : Locals E) (s : State E) h result w1 followup w2 :
  self_session s = Some h ->
  session_call_tool E h name input (world s) = (inr result, w1) ->
  messages_create E MODEL MAX_TOKENS
    (snapshot (with_tool_use l id name input (call_content result))) tools w1
    = (inr followup, w2) ->
  scan tools (ToolUseBlock id name input :: rest) l s =
  let l1 := with_tool_use l id name input (call_content result) in
  let s2 := after (create_event l1 tools) w2 (after (EvCallTool name input) w1 s) in
  match followup with
  | TextBlock text :: _ => scan tools rest (with_followup l1 text) s2
  | [] => (Raise (IndexError "list index out of range"), s2)
  | ToolUseBlock _ _ _ :: _ =>
      (Raise (AttributeError "'ToolUseBlock' object has no attribute 'text'"), s2)
  | OtherBlock cls _ :: _ =>
      (Raise (AttributeError ("'" ++ cls ++ "' object has no attribute 'text'")), s2)
  end.
Proof.
  intros Hs Hc Hm. cbn [scan scan_block].
  assert (Hg : get_session "call_tool" s = (Ok h, s))
    by (unfold get_session; now rewrite Hs).
  assert (Hsend : anthropic_create (with_tool_use l id name input (call_content result))
                    tools (after (EvCallTool name input) w1 s)
                  = (Ok followup,
                     after (create_event
                              (with_tool_use l id name input (call_content result)) tools)
                           w2 (after (EvCallTool name input) w1 s)))
    by (apply call_ok, Hm).
  destruct followup as [|[text | id' name' input' | cls type] tail].
  - apply bind_raise. rewrite (bind_ok _ _ _ Hg), (bind_ok _ _ _ (call_ok _ _ _ Hc)).
    now rewrite (bind_ok _ _ _ Hsend).
  - erewrite bind_ok; [reflexivity|].
    rewrite (bind_ok _ _ _ Hg), (bind_ok _ _ _ (call_ok _ _ _ Hc)).
    now rewrite (bind_ok _ _ _ Hsend).
  - apply bind_raise. rewrite (bind_ok _ _ _ Hg), (bind_ok _ _ _ (call_ok _ _ _ Hc)).
    now rewrite (bind_ok _ _ _ Hsend).
  - apply bind_raise. rewrite (bind_ok _ _ _ Hg), (bind_ok _ _ _ (call_ok _ _ _ Hc)).
    now rewrite (bind_ok _ _ _ Hsend).
Qed.

Lemma first_response_run (query : string) (s : State E) h tools w1 response w2 :
  self_session s = Some h ->
  session_list_tools E h (world s) = (inr tools, w1) ->
  messages_create E MODEL MAX_TOKENS [user_message E query] (map (to_param E) tools) w1
    = (inr response, w2) ->
  exists delta,
    trace (snd (orchestrate query s))
      = trace s ++ EvListTools :: first_call query tools :: delta /\
    fst (orchestrate query s) <> Running /\
    scan_run (map (to_param E) tools) (initial query) response delta
             (returned (fst (orchestrate query s))).
Proof.
  intros Hs Hl Hm. rewrite (orchestrate_scan _ _ Hs Hl Hm).
  destruct (scan _ response (initial query) _) as [o s'] eqn:Hscan.
  apply scan_sound in Hscan as (delta & Ht & _ & Hrun & Hscan).
  exists delta. cbn [fst snd]. rewrite Ht, !trace_after, <- !app_assoc. now repeat split.
Qed.

Lemma transcript_ok (o : Outcome (Locals E)) (out : string) :
  transcript o = Ok out -> returned o <> None.
Proof. now destruct o. Qed.

Lemma transcript_running (o : Outcome (Locals E)) :
  o <> Running -> transcript o <> Running.
Proof. now destruct o. Qed.

(** C1, as amended: [process_query] scans the blocks of the first model
    response only.  On a connected session whose catalog fetch and first
    model call succeed it always ends, by returning or by raising, after
    at most one follow-up model call per [tool_use] block of the first
    response, and exactly that many when it returns.  Its tool calls are
    those of an initial run of the [tool_use] blocks of the first response,
    so a [tool_use] block of a follow-up response is never executed and
    never causes a further model call. *)
Theorem scans_first_response_only (query : string) (s : State E)
    h tools w1 response w2 :
  self_session s = Some h ->
  session_list_tools E h (world s) = (inr tools, w1) ->
  messages_create E MODEL MAX_TOKENS [user_message E query] (map (to_param E) tools) w1
    = (inr response, w2) ->
  exists followups,
    trace (snd (process_query query s))
      = trace s ++ EvListTools :: first_call query tools :: followups /\
    fst (process_query query s) <> Running /\
    List.length (model_calls followups) <= List.length (tool_uses response) /\
    List.length (tool_calls followups) <= List.length (tool_uses response) /\
    (exists not_reached,
       map request (tool_uses response) = tool_calls followups ++ not_reached) /\
    (forall out, fst (process_query query s) = Ok out ->
       List.length (model_calls followups) = List.length (tool_uses response)).
Proof.
  intros Hs Hl Hm. rewrite process_query_transcript. cbn [fst snd].
  destruct (first_response_run query s Hs Hl Hm) as (delta & Ht & Hrun & Hscan).
  destruct (scan_run_requests Hscan) as (later & Hreq & _).
  apply scan_run_turns in Hscan as (Hm1 & Ht1 & Hr).
  exists delta. repeat split; trivial.
  - now apply transcript_running.
  - now exists later.
  - intros out Hout. eapply Hr, transcript_ok, Hout.
Qed.

(** C4, as amended: the [call_tool] invocations of a query are, in order
    and each with the name and the input of its block, those of an initial
    run of the [tool_use] blocks of the first model response, and of all
    of them when [process_query] returns; no other invocation is made, so
    none for a [tool_use] block of a follow-up response. *)
Theorem tool_calls_of_first_response (query : string) (s : State E)
    h tools w1 response w2 :
  self_session s = Some h ->
  session_list_tools E h (world s) = (inr tools, w1) ->
  messages_create E MODEL MAX_TOKENS [user_message E query] (map (to_param E) tools) w1
    = (inr response, w2) ->
  exists delta not_reached,
    trace (snd (process_query query s)) = trace s ++ delta /\
    map request (tool_uses response) = tool_calls delta ++ not_reached /\
    (forall out, fst (process_query query s) = Ok out -> not_reached = []).
Proof.
  intros Hs Hl Hm. rewrite process_query_transcript. cbn [fst snd].
  destruct (first_response_run query s Hs Hl Hm) as (delta & Ht & _ & Hscan).
  apply scan_run_requests in Hscan as (later & Hreq & Hr).
  exists (EvListTools :: first_call query tools :: delta), later.
  repeat split; trivial.
  intros out Hout. eapply Hr, transcript_ok, Hout.
Qed.

(** C2, as amended: when the loop of [process_query] ends normally, the
    pending buffer has been committed once per [tool_use] block of the
    first response, not once per response.  The history is then the user
    message of the query followed, for each [tool_use] block in order, by
    one assistant message holding the buffer
    (the same list object every time, which by then holds every text and
    [tool_use] block of the response) and one user message with a single
    [tool_result] block for that block's id. *)
Theorem buffer_committed_per_tool_use (query : string) (s s' : State E)
    h tools w1 response w2 (l : Locals E) :
  self_session s = Some h ->
  session_list_tools E h (world s) = (inr tools, w1) ->
  messages_create E MODEL MAX_TOKENS [user_message E query] (map (to_param E) tools) w1
    = (inr response, w2) ->
  orchestrate query s = (Ok l, s') ->
  exists outputs,
    List.length outputs = List.length (tool_uses response) /\
    messages l = Literal (user_message E query) :: commits (tool_uses response) outputs /\
    assistant_message_content l = kept response.
Proof.
  intros Hs Hl Hm Hret.
  destruct (first_response_run query s Hs Hl Hm) as (delta & _ & _ & Hscan).
  rewrite Hret in Hscan. cbn [fst returned] in Hscan.
  destruct (scan_run_locals Hscan eq_refl) as (cs & Hlen & Hmsg & Hbuf).
  exists cs. now repeat split.
Qed.

(** *** The launch of the tool server *)

Lemma no_spawn_bind {A B} (c : M E A) (k : A -> M E B) :
  no_spawn (E:=E) c -> (forall a, no_spawn (E:=E) (k a)) -> no_spawn (E:=E) (bind c k).
Proof.
  intros Hc Hk s. unfold bind.
  destruct (Hc s) as (d1 & Ht1 & Hs1). destruct (c s) as [[a | e |] s1]; cbn [snd] in *.
  - destruct (Hk a s1) as (d2 & Ht2 & Hs2). exists (d1 ++ d2).
    now rewrite Ht2, Ht1, app_assoc, spawns_app, Hs1, Hs2.
  - now exists d1.
  - now exists d1.
Qed.

Lemma no_spawn_same_trace {A} (c : M E A) :
  (forall s, trace (snd (c s)) = trace s) -> no_spawn (E:=E) c.
Proof. intros H s. exists []. now rewrite app_nil_r, H. Qed.

Lemma no_spawn_call {A} (ev : Ev) (op : Raises (World E) A) :
  spawns [ev] = [] -> no_spawn (E:=E) (call ev op).
Proof. intros H s. exists [ev]. split; [apply call_trace | trivial]. Qed.

Lemma no_spawn_get_session (method : string) : no_spawn (E:=E) (get_session method).
Proof.
  apply no_spawn_same_trace. intros s. unfold get_session.
  now destruct (self_session s).
Qed.

Lemma no_spawn_print (text : string) : no_spawn (E:=E) (print text).
Proof. intros s. now exists [EvPrint text]. Qed.

Lemma no_spawn_enter {A} (ev : Ev) (op : Raises (World E) A) res :
  spawns [ev] = [] -> no_spawn (E:=E) (enter_async_context ev op res).
Proof.
  intros H. apply no_spawn_bind; [now apply no_spawn_call|].
  intros a. now apply no_spawn_same_trace.
Qed.

Lemma connect_launches (path : string) (s : State E) :
  endswith path ".py" || endswith path ".js" = true ->
  launched_with (if endswith path ".py" then "python" else "node")%string path s.
Proof.
  intros Hext. unfold launched_with, connect_to_server. rewrite Hext. cbn [negb].
  set (params := {| command := _; args := _; env := _ |}).
  unfold enter_async_context at 1.
  match goal with
  | |- context [bind (bind (call ?ev ?op) ?reg) ?k] =>
      assert (Hk : forall a, no_spawn (E:=E) (k a)); [|revert Hk; generalize k]
  end.
  { intros t.
    apply no_spawn_bind; [now apply no_spawn_same_trace | intros _].
    apply no_spawn_bind; [now apply no_spawn_enter | intros session].
    apply no_spawn_bind; [now apply no_spawn_same_trace | intros _].
    apply no_spawn_bind; [apply no_spawn_get_session | intros h].
    apply no_spawn_bind; [now apply no_spawn_call | intros _].
    apply no_spawn_bind; [apply no_spawn_get_session | intros h'].
    apply no_spawn_bind; [now apply no_spawn_call | intros tools].
    apply no_spawn_print. }
  intros k Hk. unfold bind at 1 2.
  destruct (call_trace (EvStdioClient params) (stdio_client E params) s)
    as (Ht & _ & Hrun).
  destruct (call (EvStdioClient params) (stdio_client E params) s) as [[t | e |] s1];
    cbn [fst snd] in *.
  - destruct (Hk t {| world := world s1; trace := trace s1;
                      self_session := self_session s1;
                      self_stdio_write := self_stdio_write s1;
                      exit_stack := ResTransport t :: exit_stack s1 |})
      as (later & Hlater & Hquiet).
    exists later. cbn [trace] in Hlater. now rewrite Hlater, Ht, <- app_assoc.
  - exists []. now rewrite Ht.
  - now contradiction Hrun.
Qed.

(** C5: a path that ends neither in [.py] nor in [.js] makes
    [connect_to_server] raise its ValueError (the UnsupportedScript error)
    with the state untouched, so before any subprocess is launched; a path
    ending in [.py] is launched with [python] and a path ending in [.js]
    with [node], as the first library call and only once. *)
Theorem connect_by_extension (path : string) (s : State E) :
  (endswith path ".py" = false -> endswith path ".js" = false ->
   connect_to_server path s
     = (Raise (ValueError "Server script must be a .py or .js file"), s)) /\
  (endswith path ".py" = true -> launched_with "python" path s) /\
  (endswith path ".js" = true -> launched_with "node" path s).
Proof.
  repeat split.
  - intros Hpy Hjs. unfold connect_to_server. now rewrite Hpy, Hjs.
  - intros Hpy. generalize (connect_launches path s). rewrite Hpy. auto.
  - intros Hjs. generalize (connect_launches path s).
    destruct (endswith path ".py") eqn:Hpy.
    + apply py_is_not_js in Hpy. congruence.
    + rewrite Hjs. auto.
Qed.

(** *** The driver loop and the top level *)

Lemma process_query_trace (query : string) (s : State E) :
  fst (process_query query s) <> Running /\
  same_self s (snd (process_query query s)) /\
  (forall h, self_session s = Some h ->
   exists calls,
     trace (snd (process_query query s)) = trace s ++ EvListTools :: calls /\
     forall sent, hd_error (model_calls calls) = Some sent ->
                  sent = [user_message E query]).
Proof.
  rewrite process_query_transcript. cbn [fst snd].
  destruct (orchestrate query s) as [o s'] eqn:Ho.
  apply orchestrate_trace in Ho as (Hrun & Hself & Hshape). cbn [fst snd].
  split; [now apply transcript_running|]. split; trivial.
  intros h Hs. destruct Hshape as [(Hnone & _) | Hshape]; [congruence|].
  destruct Hshape as (h' & calls & _ & Ht & _ & _ & Hfirst).
  exists calls. split; trivial.
  destruct (session_list_tools E h' (world s)) as [[e|tools] w1].
  - destruct Hfirst as [-> _]. discriminate.
  - destruct Hfirst as (later & ->). cbn. now intros sent [= <-].
Qed.

(** The [try] block of a pass reads one line and does nothing else that
    lasts: however it ends, all it has done is the call of [input]. *)
Lemma chat_try_state (s s' : State E) (o : Outcome Control) :
  chat_try s = (o, s') -> exists w1, s' = after (EvInput (LF ++ "Query: ")) w1 s.
Proof.
  unfold chat_try. intros Hrun.
  apply bind_inv in Hrun as [(line & s1 & Hin & Hrun) | [(e' & Hin & _) | (Hin & _)]];
    apply call_inv in Hin as (w1 & Hs1 & _); exists w1; trivial.
  cbn zeta in Hrun.
  destruct (String.eqb (str_lower E (str_strip E line)) "quit").
  - now injection Hrun as _ <-.
  - now injection Hrun as _ <-.
Qed.

(** The handling of a query, as the file is written: the lookup of
    [process_query] on [self] fails. *)
Lemma chat_try_query (s : State E) (line : string) (w1 : World E) :
  builtin_input E (LF ++ "Query: ") (world s) = (inr line, w1) ->
  String.eqb (str_lower E (str_strip E line)) "quit" = false ->
  chat_try s
    = (Raise (no_attribute "process_query"), after (EvInput (LF ++ "Query: ")) w1 s).
Proof.
  intros Hin Hquit. unfold chat_try.
  rewrite (bind_ok _ _ _ (call_ok _ _ _ Hin)). cbn zeta. rewrite Hquit. reflexivity.
Qed.

(** C8: whatever error (an [Exception]) the [try] block of a pass raises
    for the query just read, the pass catches it, prints it and ends
    normally, and the loop goes on to read the next query with the same
    session and exit stack.  Nothing of the failed query is kept: the state
    the next pass starts from differs from the one before the query by the
    line read and the error printed.  As the file is written, the error of
    every query is the [AttributeError] of [self.process_query], which
    [MCPClient] does not define. *)
Theorem chat_loop_survives_query_error (s : State E) :
  (forall (e : PyExc) (s2 : State E),
     chat_try s = (Raise e, s2) ->
     is_Exception e = true ->
     let s3 := log (EvPrint (LF ++ "Error: " ++ str_exc e)) s2 in
     chat_iteration s = (Ok Continue, s3) /\
     same_self s s3 /\
     (forall fuel, while_true (S fuel) s = while_true fuel s3) /\
     exists w1,
       s3 = log (EvPrint (LF ++ "Error: " ++ str_exc e))
              (after (EvInput (LF ++ "Query: ")) w1 s)) /\
  (forall (line : string) (w1 : World E),
     builtin_input E (LF ++ "Query: ") (world s) = (inr line, w1) ->
     String.eqb (str_lower E (str_strip E line)) "quit" = false ->
     chat_try s
       = (Raise (no_attribute "process_query"),
          after (EvInput (LF ++ "Query: ")) w1 s) /\
     is_Exception (no_attribute "process_query") = true).
Proof.
  split.
  - intros e s2 Htry Hexc s3.
    assert (Hiter : chat_iteration s = (Ok Continue, s3)).
    { unfold chat_iteration, try_except. rewrite Htry, Hexc. reflexivity. }
    destruct (chat_try_state _ Htry) as (w1 & Hs2).
    split; trivial. split; [|split].
    + subst s3 s2. now repeat split.
    + intros fuel. cbn [while_true]. now rewrite (bind_ok _ _ _ Hiter).
    + exists w1. subst s3. now rewrite Hs2.
  - intros line w1 Hin Hquit. split; [exact (@chat_try_query s line w1 Hin Hquit) | reflexivity].
Qed.

Lemma MCPClient_init_ok (s : State E) (w0 : World E) :
  Anthropic_new E (world s) = (inr tt, w0) ->
  MCPClient_init s = (Ok tt, after EvAnthropic w0 (blank s)).
Proof. intros Hinit. unfold MCPClient_init, call. cbn [world]. now rewrite Hinit. Qed.

(** [main] once the client is built: both lookups on [client] fail, and the
    error of the [finally] clause is the one that leaves [main]. *)
Lemma main_with_client (fuel : nat) (argv : list string) (s : State E) (w0 : World E) :
  2 <= List.length argv ->
  Anthropic_new E (world s) = (inr tt, w0) ->
  main fuel argv s
    = (Raise (no_attribute "cleanup"), after EvAnthropic w0 (blank s)).
Proof.
  intros Hargv Hinit. unfold main.
  destruct (Nat.ltb_spec (List.length argv) 2) as [Hlt|_]; [lia|].
  rewrite (bind_ok _ _ _ (MCPClient_init_ok s Hinit)). reflexivity.
Qed.


End Properties.

(** ** Concrete runs *)

Section Concrete.
Import Scripted.
Local Open Scope list_scope.

(** Scenario B of the specification: one text block, no tool call. *)
Example scenario_B :
  fst (process_query "hi" hello) = Ok "Hello"%string /\
  List.length (model_calls (trace (snd (process_query "hi" hello)))) = 1 /\
  tool_calls (trace (snd (process_query "hi" hello))) = [].
Proof. now vm_compute. Qed.

(** Scenario C: one tool call, then a text answer. *)
Example scenario_C :
  fst (process_query "x?" one_tool_use)
    = Ok ("[Calling tool lookup with args {'x': 1}]" ++ LF ++ "The answer is 42")%string /\
  List.length (model_calls (trace (snd (process_query "x?" one_tool_use)))) = 2 /\
  tool_calls (trace (snd (process_query "x?" one_tool_use))) = [("lookup", x1)].
Proof. now vm_compute. Qed.

(** *** C1 *)

(** C1 fails as stated: the follow-up response holds a [tool_use] block,
    yet [process_query] returns after two model calls and the block is
    never passed to [call_tool]. *)
Lemma followup_tool_use_not_executed :
  nth 1 (model_replies (world asks_again)) (inr [])
    = inr [TextBlock "Let me check"; ToolUseBlock "tu_2" "lookup" x2] /\
  has_tool_use [TextBlock "Let me check"; ToolUseBlock "tu_2" "lookup" x2] = true /\
  fst (process_query "x?" asks_again)
    = Ok ("[Calling tool lookup with args {'x': 1}]" ++ LF ++ "Let me check")%string /\
  List.length (model_calls (trace (snd (process_query "x?" asks_again)))) = 2 /\
  ~ In ("lookup", x2) (tool_calls (trace (snd (process_query "x?" asks_again)))).
Proof.
  repeat split; try reflexivity.
  vm_compute. intros [H | []]. discriminate H.
Qed.

Lemma scans_first_response_only_witness :
  exists followups,
    trace (snd (process_query "x?" asks_again))
      = trace asks_again ++ EvListTools :: first_call (E:=E) "x?" [lookup] :: followups /\
    fst (process_query "x?" asks_again) <> Running /\
    List.length (model_calls followups) <= 1 /\
    List.length (tool_calls followups) <= 1 /\
    (exists not_reached,
       [("lookup"%string, x1)] = tool_calls followups ++ not_reached) /\
    (forall out, fst (process_query "x?" asks_again) = Ok out ->
       List.length (model_calls followups) = 1).
Proof.
  apply (@scans_first_response_only E "x?" asks_again tt [lookup]
           (world asks_again) [ToolUseBlock "tu_1" "lookup" x1]
           (snd (pop_model (world asks_again)))); reflexivity.
Defined.

(** *** C2 *)

(** C2 fails as stated: one response with two [tool_use] blocks commits
    the buffer twice, so that the last history sent holds two assistant
    messages, both with the whole buffer. *)
Lemma buffer_committed_twice :
  fst (orchestrate "q" two_tool_uses) = Ok two_commits /\
  List.length (filter (fun r => match r with AssistantAlias => true | _ => false end)
                      (messages two_commits)) = 2 /\
  assistant_messages
    (last (model_calls (trace (snd (orchestrate "q" two_tool_uses)))) []) = 2.
Proof. repeat split; vm_compute; reflexivity. Qed.

Lemma buffer_committed_per_tool_use_witness :
  exists outputs,
    List.length outputs = 2 /\
    messages two_commits
      = Literal (user_message E "q")
        :: commits (E:=E) [("tu_1", "lookup", x1); ("tu_2", "lookup", x2)]%string outputs /\
    assistant_message_content two_commits
      = [ToolUseBlock "tu_1" "lookup" x1; ToolUseBlock "tu_2" "lookup" x2].
Proof.
  apply (@buffer_committed_per_tool_use E "q" two_tool_uses
           (snd (orchestrate "q" two_tool_uses)) tt [lookup] (world two_tool_uses)
           [ToolUseBlock "tu_1" "lookup" x1; ToolUseBlock "tu_2" "lookup" x2]
           (snd (pop_model (world two_tool_uses))) two_commits);
    vm_compute; reflexivity.
Defined.

(** *** C3 *)

(** C3 fails as stated: two text blocks come back with a line feed
    between them, which their concatenation does not have. *)
Lemma text_blocks_joined_by_line_feeds :
  fst (process_query "hi" two_texts) = Ok ("a" ++ LF ++ "b")%string /\
  fst (process_query "hi" two_texts)
    <> Ok (String.concat "" (texts [TextBlock (Json:=string) "a"; TextBlock "b"])).
Proof. split; [reflexivity | discriminate]. Qed.

Lemma text_only_response_witness :
  exists s',
    process_query "hi" hello = (Ok "Hello"%string, s') /\
    trace s' = trace hello ++ [EvListTools; first_call (E:=E) "hi" [lookup]] /\
    List.length (model_calls [EvListTools; first_call (E:=E) "hi" [lookup]]) = 1 /\
    tool_calls [EvListTools; first_call (E:=E) "hi" [lookup]] = [].
Proof.
  apply (@text_only_response E "hi" hello tt [lookup] (world hello)
           [TextBlock "Hello"] (snd (pop_model (world hello)))); reflexivity.
Defined.

(** *** C4 *)

(** C4 fails as stated: the second response of this query holds a
    [tool_use] block for which [call_tool] is never invoked, although the
    query returns. *)
Lemma followup_tool_use_never_called :
  nth 1 (model_replies (world asks_again_then_text)) (inr [])
    = inr [TextBlock "One more"; ToolUseBlock "tu_2" "lookup" x2; TextBlock "then"] /\
  fst (process_query "x?" asks_again_then_text)
    = Ok ("[Calling tool lookup with args {'x': 1}]" ++ LF ++ "One more")%string /\
  tool_calls (trace (snd (process_query "x?" asks_again_then_text))) = [("lookup", x1)].
Proof. now vm_compute. Qed.

Lemma tool_calls_of_first_response_witness :
  exists delta not_reached,
    trace (snd (process_query "q" two_tool_uses)) = trace two_tool_uses ++ delta /\
    [("lookup", x1); ("lookup", x2)]%string = tool_calls delta ++ not_reached /\
    (forall out, fst (process_query "q" two_tool_uses) = Ok out -> not_reached = []).
Proof.
  apply (@tool_calls_of_first_response E "q" two_tool_uses tt [lookup]
           (world two_tool_uses)
           [ToolUseBlock "tu_1" "lookup" x1; ToolUseBlock "tu_2" "lookup" x2]
           (snd (pop_model (world two_tool_uses)))); reflexivity.
Defined.

(** *** C5: scenario D and the two interpreters *)

Lemma connect_by_extension_witness :
  connect_to_server "server.txt" leaving
    = (Raise (ValueError "Server script must be a .py or .js file"), leaving) /\
  launched_with "python" "server.py" leaving /\
  launched_with "node" "build/index.js" leaving.
Proof.
  split; [|split].
  - apply (proj1 (connect_by_extension "server.txt" leaving)); reflexivity.
  - apply (proj1 (proj2 (connect_by_extension "server.py" leaving))); reflexivity.
  - apply (proj2 (proj2 (connect_by_extension "build/index.js" leaving))); reflexivity.
Defined.

(** *** C6 *)

Lemma process_query_fresh_history_witness :
  exists calls,
    trace (snd (process_query "x?" one_tool_use))
      = trace one_tool_use ++ EvListTools :: calls /\
    catalog_fetches (EvListTools :: calls) = 1 /\
    exists later,
      calls = EvMessagesCreate MODEL MAX_TOKENS
                [ {| role := user; content := ContentText "x?" |} ]
                (map (to_param E) [lookup]) :: later.
Proof.
  apply (@process_query_fresh_history E "x?" one_tool_use tt); reflexivity.
Defined.

(** *** C7 *)

(** The history sent after the tool call of [one_tool_use]: the tool
    result carries the id of the block that closes the assistant
    message. *)
Example followup_history_answers :
  nth 1 (model_calls (trace (snd (process_query "x?" one_tool_use)))) []
    = [user_message E "x?";
       {| role := assistant; content := ContentBlocks [ToolUseBlock "tu_1" "lookup" x1] |};
       tool_result_message E "tu_1" "42"] /\
  answers_last_tool_use
    (nth 1 (model_calls (trace (snd (process_query "x?" one_tool_use)))) []).
Proof.
  split; [vm_compute; reflexivity|].
  exists [user_message E "x?"], [], "tu_1"%string, "lookup"%string, x1, "42"%string.
  vm_compute. reflexivity.
Qed.

(** *** C8: a query the loop cannot handle *)

Lemma chat_loop_survives_query_error_witness :
  chat_try tool_fails = (Raise (no_attribute "process_query"), asked) /\
  chat_iteration tool_fails = (Ok Continue, reported) /\
  self_session reported = self_session tool_fails /\
  while_true 3 tool_fails = while_true 2 reported /\
  fst (while_true 3 tool_fails) = Ok tt.
Proof.
  destruct (@chat_loop_survives_query_error E tool_fails) as (Hcaught & Hquery).
  destruct (Hquery "weather?"%string (snd (pop_line (world tool_fails))) eq_refl eq_refl)
    as (Htry & Hexc).
  destruct (Hcaught _ _ Htry Hexc) as (Hpass & (Hsession & _) & Hloop & _).
  split; [exact Htry|]. split; [exact Hpass|]. split; [exact Hsession|].
  split; [exact (Hloop 2)|]. vm_compute. reflexivity.
Defined.

(** *** C9 *)



(** *** C10 *)

Lemma followup_read_as_first_text_witness :
  fst (scan (E:=E) [] [ToolUseBlock "tu_1" "lookup" x1] (initial "x?") answering)
    = Ok (with_followup (with_tool_use (E:=E) (initial "x?") "tu_1" "lookup" x1 "42")
                        "The answer is 42") /\
  fst (scan (E:=E) [] [ToolUseBlock "tu_1" "lookup" x1; TextBlock "never reached"]
            (initial "x?") answering_nothing)
    = Raise (IndexError "list index out of range").
Proof.
  split.
  - exact (f_equal fst
             (@followup_read_as_first_text E [] "tu_1" "lookup" x1 []
                (initial "x?") answering tt (tool_ok_result "42")
                (snd (pop_tool (world answering)))
                [TextBlock "The answer is 42"; TextBlock "ignored"]
                (snd (pop_model (snd (pop_tool (world answering)))))
                eq_refl eq_refl eq_refl)).
  - exact (f_equal fst
             (@followup_read_as_first_text E [] "tu_1" "lookup" x1
                [TextBlock "never reached"]
                (initial "x?") answering_nothing tt (tool_ok_result "42")
                (snd (pop_tool (world answering_nothing)))
                []
                (snd (pop_model (snd (pop_tool (world answering_nothing)))))
                eq_refl eq_refl eq_refl)).
Defined.

End Concrete.

(** ** Further properties of the client *)

Section MoreProperties.
Variable E : Env.
Local Open Scope list_scope.

Local Abbreviation Block := (ContentBlock (Json E)).
Local Abbreviation Ev := (Event (Json E) (ToolContent E)).
Local Abbreviation Params := (list (ToolParam (Json E))).

(** *** Which library calls a computation can make *)

Lemma emits_bind {A B} (allowed : Ev -> bool) (c : M E A) (k : A -> M E B) :
  emits allowed c -> (forall a, emits allowed (k a)) -> emits allowed (bind c k).
Proof.
  intros Hc Hk s. unfold bind.
  destruct (Hc s) as (d1 & Ht1 & Ha1). destruct (c s) as [[a | e |] s1]; cbn [snd] in *.
  - destruct (Hk a s1) as (d2 & Ht2 & Ha2). exists (d1 ++ d2).
    now rewrite Ht2, Ht1, app_assoc, forallb_app, Ha1, Ha2.
  - now exists d1.
  - now exists d1.
Qed.

Lemma emits_silent {A} (allowed : Ev -> bool) (c : M E A) :
  (forall s, trace (snd (c s)) = trace s) -> emits allowed c.
Proof. intros H s. exists []. now rewrite app_nil_r, H. Qed.

Lemma emits_call {A} (allowed : Ev -> bool) (ev : Ev) (op : Raises (World E) A) :
  allowed ev = true -> emits allowed (call ev op).
Proof.
  intros H s. exists [ev]. split; [apply call_trace|]. cbn. now rewrite H.
Qed.

Lemma emits_print (allowed : Ev -> bool) (text : string) :
  allowed (EvPrint text) = true -> emits (E:=E) allowed (print text).
Proof. intros H s. exists [EvPrint text]. split; [reflexivity|]. cbn. now rewrite H. Qed.

Lemma emits_get_session (allowed : Ev -> bool) (method : string) :
  emits (E:=E) allowed (get_session method).
Proof.
  apply emits_silent. intros s. unfold get_session. now destruct (self_session s).
Qed.

Lemma emits_try_except {A} (allowed : Ev -> bool) (body : M E A) handler :
  emits allowed body -> (forall e, emits allowed (handler e)) ->
  emits allowed (try_except body handler).
Proof.
  intros Hb Hh s. unfold try_except.
  destruct (Hb s) as (d1 & Ht1 & Ha1). destruct (body s) as [[a | e |] s1]; cbn [snd] in *.
  - now exists d1.
  - destruct (is_Exception e); [|now exists d1].
    destruct (Hh e s1) as (d2 & Ht2 & Ha2). exists (d1 ++ d2).
    now rewrite Ht2, Ht1, app_assoc, forallb_app, Ha1, Ha2.
  - now exists d1.
Qed.

Lemma emits_scan (tools : Params) (blocks : list Block) :
  forall l, emits is_query_event (scan tools blocks l).
Proof.
  induction blocks as [|content rest IH]; intros l; cbn [scan].
  - now apply emits_silent.
  - apply emits_bind; [|intros l'; apply IH].
    destruct content as [text | id name input | cls type]; cbn [scan_block].
    + now apply emits_silent.
    + apply emits_bind; [apply emits_get_session | intros h].
      apply emits_bind; [now apply emits_call | intros result].
      apply emits_bind; [now apply emits_call | intros response].
      apply emits_bind; [|intros text; now apply emits_silent].
      apply emits_silent. intros s.
      now destruct response as [|[text | id' name' input' | cls type] tail].
    + now apply emits_silent.
Qed.

Lemma emits_process_query (query : string) :
  emits (E:=E) is_query_event (process_query query).
Proof.
  unfold process_query, orchestrate.
  apply emits_bind; [|intros l; now apply emits_silent].
  apply emits_bind; [apply emits_get_session | intros h].
  apply emits_bind; [now apply emits_call | intros tools].
  apply emits_bind; [now apply emits_call | intros response].
  apply emits_scan.
Qed.

Lemma emits_chat_iteration : emits (E:=E) is_console_event chat_iteration.
Proof.
  unfold chat_iteration. apply emits_try_except.
  - unfold chat_try. apply emits_bind; [now apply emits_call | intros line]. cbn zeta.
    destruct (String.eqb _ _); [now apply emits_silent|].
    now apply emits_silent.
  - intros e. apply emits_bind; [now apply emits_print | intros _].
    now apply emits_silent.
Qed.

Lemma emits_while_true (fuel : nat) : emits (E:=E) is_console_event (while_true fuel).
Proof.
  induction fuel as [|fuel IH]; cbn [while_true].
  - now apply emits_silent.
  - apply emits_bind; [apply emits_chat_iteration | intros [|]]; trivial.
    now apply emits_silent.
Qed.

(** *** More on [process_query] *)

Lemma orchestrate_run (query : string) (s : State E) :
  (self_session s = None /\ orchestrate query s =
     (Raise (AttributeError "'NoneType' object has no attribute 'list_tools'"), s)) \/
  exists h,
    self_session s = Some h /\
    match session_list_tools E h (world s) with
    | (inl e, w1) => orchestrate query s = (Raise e, after EvListTools w1 s)
    | (inr tools, _) =>
        exists followups response r,
          trace (snd (orchestrate query s))
            = trace s ++ EvListTools :: first_call query tools :: followups /\
          scan_run (map (to_param E) tools) (initial query) response followups r /\
          (forall l, fst (orchestrate query s) = Ok l -> r = Some l)
    end.
Proof.
  destruct (self_session s) as [h|] eqn:Hs.
  - right. exists h. split; trivial.
    assert (Hg : get_session "list_tools" s = (Ok h, s))
      by (unfold get_session; now rewrite Hs).
    destruct (session_list_tools E h (world s)) as [[e|tools] w1] eqn:Hl.
    + unfold orchestrate. rewrite (bind_ok _ _ _ Hg).
      now rewrite (bind_raise _ _ _ (call_raise _ _ _ Hl)).
    + destruct (messages_create E MODEL MAX_TOKENS [user_message E query]
                  (map (to_param E) tools) w1) as [[e|response] w2] eqn:Hm.
      * exists [], [], (Some (initial query)).
        assert (Ho : orchestrate query s
                     = (Raise e, after (first_call query tools) w2 (after EvListTools w1 s))).
        { unfold orchestrate. rewrite (bind_ok _ _ _ Hg).
          rewrite (bind_ok _ _ _ (call_ok _ _ _ Hl)). cbn zeta.
          apply bind_raise. unfold anthropic_create.
          now rewrite (call_raise _ _ (set_world w1 (log EvListTools s)) Hm). }
        rewrite Ho. cbn [fst snd]. rewrite !trace_after, <- app_assoc.
        split; [reflexivity|]. split; [apply scan_done | discriminate].
      * destruct (first_response_run query s Hs Hl Hm) as (delta & Ht & _ & Hscan).
        exists delta, response, (returned (fst (orchestrate query s))).
        repeat split; trivial. now intros l ->.
  - left. split; trivial. unfold orchestrate, bind, get_session. now rewrite Hs.
Qed.

(** X1: whatever the environment answers, [process_query] only calls
    [list_tools], [messages.create] and [call_tool]: it never prints, reads
    input, launches a process or closes the exit stack, and it leaves
    [self.session], the transport and the exit stack as they were. *)
Theorem process_query_only_queries (query : string) (s : State E) :
  same_self s (snd (process_query query s)) /\
  exists delta,
    trace (snd (process_query query s)) = trace s ++ delta /\
    forallb is_query_event delta = true.
Proof.
  split; [apply process_query_trace | apply emits_process_query].
Qed.

(** X2: called on a client whose session is not set, [process_query]
    raises the AttributeError of [self.session.list_tools] at once: no
    library call is made and the state is untouched. *)
Theorem process_query_needs_session (query : string) (s : State E) :
  self_session s = None ->
  process_query query s
    = (Raise (AttributeError "'NoneType' object has no attribute 'list_tools'"), s).
Proof.
  intros Hs. rewrite process_query_transcript.
  destruct (orchestrate_run query s) as [[_ ->] | (h & Hh & _)]; [reflexivity | congruence].
Qed.

Lemma block_run_params (tools : Params) (l : Locals E) content delta r :
  block_run tools l content delta r ->
  Forall (fun p => p = (MODEL, MAX_TOKENS, tools)) (create_params delta).
Proof. intros H. destruct H; cbn; repeat constructor. Qed.

Lemma create_params_app (t1 t2 : list Ev) :
  create_params (t1 ++ t2) = create_params t1 ++ create_params t2.
Proof.
  induction t1 as [|ev t1 IH]; [reflexivity|].
  destruct ev; cbn; now rewrite ?IH.
Qed.

Lemma scan_run_params (tools : Params) (l : Locals E) blocks delta r :
  scan_run tools l blocks delta r ->
  Forall (fun p => p = (MODEL, MAX_TOKENS, tools)) (create_params delta).
Proof.
  induction 1 as [l | l content rest delta Hb
                 | l content rest delta l' delta' r Hb _ IH].
  - constructor.
  - eapply block_run_params, Hb.
  - rewrite create_params_app. apply Forall_app. split; trivial.
    eapply block_run_params, Hb.
Qed.

(** X3: every model call of one query names the same model and token
    limit and offers the same tools: the catalog fetched at the start,
    converted field by field, also on the follow-up calls. *)
Theorem same_tools_on_every_call (query : string) (s : State E) h tools w1 :
  self_session s = Some h ->
  session_list_tools E h (world s) = (inr tools, w1) ->
  exists delta,
    trace (snd (process_query query s)) = trace s ++ delta /\
    Forall (fun p => p = ("claude-sonnet-4-20250514"%string, 1000,
                          map (fun tool => {| param_name := tool_name tool;
                                              param_description := tool_description tool;
                                              input_schema := inputSchema tool |}) tools))
           (create_params delta).
Proof.
  intros Hs Hl. rewrite process_query_transcript. cbn [snd].
  destruct (orchestrate_run query s) as [[Hnone _] | (h' & Hs' & Hrun)]; [congruence|].
  assert (h' = h) as -> by congruence. rewrite Hl in Hrun.
  destruct Hrun as (followups & response & r & Ht & Hscan & _).
  exists (EvListTools :: first_call query tools :: followups). split; trivial.
  cbn. constructor; [reflexivity|]. apply (scan_run_params Hscan).
Qed.

Lemma transcript_lines_cons (content : Block) (rest : list Block)
    (now later : list string) :
  List.length now = List.length (tool_uses [content]) ->
  transcript_lines (content :: rest) (now ++ later)
    = transcript_lines [content] now ++ transcript_lines rest later.
Proof.
  destruct content as [text | id name input | cls type]; cbn.
  - destruct now; [reflexivity | discriminate].
  - destruct now as [|answer [|]]; try discriminate. reflexivity.
  - destruct now; [reflexivity | discriminate].
Qed.

Lemma scan_block_answers (tools : Params) (content : Block) (l l' : Locals E)
    (s s' : State E) :
  scan_block tools content l s = (Ok l', s') ->
  exists delta answers,
    trace s' = trace s ++ delta /\
    Forall2 (answered_with tools) (model_calls delta) answers /\
    List.length answers = List.length (tool_uses [content]) /\
    final_text l' = final_text l ++ transcript_lines [content] answers.
Proof.
  destruct content as [text | id name input | cls type]; cbn [scan_block].
  - intros H. injection H as <- <-. exists [], []. cbn.
    rewrite app_nil_r. repeat split; constructor.
  - intros H.
    apply bind_inv in H as [(h & s1 & Hg & H) | [(e & _ & [=]) | (_ & [=])]].
    apply get_session_inv in Hg as [-> _].
    apply bind_inv in H as [(res & s2 & Hc & H) | [(e & _ & [=]) | (_ & [=])]].
    apply call_inv in Hc as (w1 & -> & _).
    apply bind_inv in H as [(r & s3 & Hm & H) | [(e & _ & [=]) | (_ & [=])]].
    apply call_inv in Hm as (w2 & -> & [(r' & Hop & [= <-]) | (e & _ & [=])]).
    apply bind_inv in H as [(t & s4 & Hf & H) | [(e & _ & [=]) | (_ & [=])]].
    apply first_text_inv in Hf as [-> [(t' & rest & -> & [= <-]) | (e & [=])]].
    injection H as <- <-.
    eexists [EvCallTool name input; _], [t]. cbn.
    rewrite <- !app_assoc. repeat split.
    constructor; [|constructor]. now exists w1, rest, w2.
  - intros H. injection H as <- <-. exists [], []. cbn.
    rewrite !app_nil_r. repeat split; constructor.
Qed.

Lemma scan_answers (tools : Params) (blocks : list Block) :
  forall (l l' : Locals E) (s s' : State E),
    scan tools blocks l s = (Ok l', s') ->
    exists delta answers,
      trace s' = trace s ++ delta /\
      Forall2 (answered_with tools) (model_calls delta) answers /\
      List.length answers = List.length (tool_uses blocks) /\
      final_text l' = final_text l ++ transcript_lines blocks answers.
Proof.
  induction blocks as [|content rest IH]; intros l l' s s'; cbn [scan].
  - intros H. injection H as <- <-. exists [], []. cbn.
    rewrite !app_nil_r. repeat split; constructor.
  - intros H.
    apply bind_inv in H as [(l1 & s1 & Hb & H) | [(e & _ & [=]) | (_ & [=])]].
    apply scan_block_answers in Hb as (d1 & a1 & Ht1 & Ha1 & Hlen1 & Hf1).
    apply IH in H as (d2 & a2 & Ht2 & Ha2 & Hlen2 & Hf2).
    exists (d1 ++ d2), (a1 ++ a2).
    rewrite Ht2, Ht1, <- app_assoc, model_calls_app, tool_uses_cons, !length_app.
    rewrite transcript_lines_cons by trivial.
    rewrite Hf2, Hf1.
    split; [reflexivity|]. split; [now apply Forall2_app|].
    split; [lia | now rewrite <- app_assoc].
Qed.


(** X5: an error of [call_tool] ends the loop with that error: the
    follow-up model call is not made and the blocks after the failed
    [tool_use] block are not processed. *)
Theorem tool_error_ends_query (tools : Params) id name input
    (rest : list Block) (l : Locals E) (s : State E) h e w1 :
  self_session s = Some h ->
  session_call_tool E h name input (world s) = (inl e, w1) ->
  scan tools (ToolUseBlock id name input :: rest) l s
    = (Raise e, after (EvCallTool name input) w1 s).
Proof.
  intros Hs Hc. cbn [scan scan_block].
  assert (Hg : get_session "call_tool" s = (Ok h, s))
    by (unfold get_session; now rewrite Hs).
  apply bind_raise. rewrite (bind_ok _ _ _ Hg).
  now rewrite (bind_raise _ _ _ (call_raise _ _ _ Hc)).
Qed.

(** *** The histories sent to the model *)

Lemma role_snapshot (l : Locals E) :
  map (@role _ _) (snapshot l) = map ref_role (messages l).
Proof.
  unfold snapshot. rewrite map_map. apply map_ext. now intros [m|].
Qed.

Lemma block_run_turns_of (tools : Params) (l : Locals E) content delta r (k : nat) :
  block_run tools l content delta r ->
  map ref_role (messages l) = turns k ->
  map (map (@role _ _)) (model_calls delta)
    = map turns (seq (S k) (List.length (model_calls delta))) /\
  (forall l', r = Some l' ->
     map ref_role (messages l') = turns (k + List.length (model_calls delta))).
Proof.
  intros H Hk.
  assert (Hnext : forall id name input c,
             map (@role _ _) (snapshot (with_tool_use l id name input c)) = turns (S k)).
  { intros. rewrite role_snapshot. cbn. now rewrite map_app, Hk. }
  destruct H; cbn [model_calls create_event List.length seq map];
    rewrite ?Hnext, ?Nat.add_0_r; (split; [reflexivity|]); intros l' [= <-]; trivial.
  cbn. now rewrite map_app, Hk, Nat.add_1_r.
Qed.

Lemma scan_run_turns_of (tools : Params) (l : Locals E) blocks delta r :
  scan_run tools l blocks delta r ->
  forall k,
    map ref_role (messages l) = turns k ->
    map (map (@role _ _)) (model_calls delta)
      = map turns (seq (S k) (List.length (model_calls delta))) /\
    (forall l', r = Some l' ->
       map ref_role (messages l') = turns (k + List.length (model_calls delta))).
Proof.
  induction 1 as [l | l content rest delta Hb
                 | l content rest delta l1 delta' r Hb _ IH]; intros k Hk.
  - cbn. rewrite Nat.add_0_r. split; [reflexivity|]. now intros l' [= <-].
  - destruct (block_run_turns_of k Hb Hk) as [Hsent _]. split; [exact Hsent | discriminate].
  - destruct (block_run_turns_of k Hb Hk) as [Hsent1 Hl1].
    specialize (Hl1 l1 eq_refl).
    destruct (IH _ Hl1) as [Hsent2 Hl2].
    rewrite model_calls_app, length_app, seq_app, !map_app, Hsent1.
    split.
    + now rewrite Hsent2.
    + intros l' Hr. rewrite (Hl2 l' Hr). f_equal. lia.
Qed.

(** X6: the histories one query sends alternate roles and grow by two
    messages per call: the history of the first model call is the user's
    query alone, and that of the i-th follow-up call is the query followed
    by i pairs of an assistant message and a user message. *)
Theorem histories_alternate (query : string) (s : State E) :
  exists delta,
    trace (snd (process_query query s)) = trace s ++ delta /\
    map (map (@role _ _)) (model_calls delta)
      = map turns (seq 0 (List.length (model_calls delta))).
Proof.
  rewrite process_query_transcript. cbn [snd].
  destruct (orchestrate_run query s) as [[_ ->] | (h & _ & Hrun)].
  - exists []. now rewrite app_nil_r.
  - destruct (session_list_tools E h (world s)) as [[e|tools] w1].
    + rewrite Hrun. cbn [snd]. exists [EvListTools]. now rewrite trace_after.
    + destruct Hrun as (followups & response & r & Ht & Hscan & _).
      exists (EvListTools :: first_call query tools :: followups). split; trivial.
      destruct (scan_run_turns_of Hscan 0 eq_refl) as [Hsent _].
      cbn. now rewrite Hsent.
Qed.

Lemma snapshot_holds_buffer (l : Locals E) :
  literals_are_users l ->
  assistants_hold (assistant_message_content l) (snapshot l).
Proof.
  unfold literals_are_users, assistants_hold, snapshot. intros H.
  apply Forall_map. eapply Forall_impl; [|exact H].
  intros [m|] Hr Hrole; [|reflexivity]. now specialize (Hr Hrole).
Qed.

Lemma with_tool_use_literals (l : Locals E) id name input c :
  literals_are_users l -> literals_are_users (with_tool_use l id name input c).
Proof.
  unfold literals_are_users. intros H. cbn. apply Forall_app. split; trivial.
  constructor; [reflexivity|]. constructor; [|constructor].
  intros Hrole. discriminate Hrole.
Qed.

Lemma block_run_buffer (tools : Params) (l : Locals E) content delta r :
  block_run tools l content delta r ->
  literals_are_users l ->
  Forall (fun sent => exists buffer, assistants_hold buffer sent) (model_calls delta) /\
  (forall l', r = Some l' -> literals_are_users l').
Proof.
  intros H Hl.
  destruct H; cbn [model_calls create_event]; split;
    try (intros l' [= <-]; trivial; now apply with_tool_use_literals);
    try discriminate; repeat constructor;
    eexists; apply snapshot_holds_buffer; now apply with_tool_use_literals.
Qed.

Lemma scan_run_buffer (tools : Params) (l : Locals E) blocks delta r :
  scan_run tools l blocks delta r ->
  literals_are_users l ->
  Forall (fun sent => exists buffer, assistants_hold buffer sent) (model_calls delta) /\
  (forall l', r = Some l' -> literals_are_users l').
Proof.
  induction 1 as [l | l content rest delta Hb
                 | l content rest delta l1 delta' r Hb _ IH]; intros Hl.
  - split; [constructor | now intros l' [= <-]].
  - split; [eapply block_run_buffer; eassumption | discriminate].
  - destruct (block_run_buffer Hb Hl) as [Hsent1 Hl1].
    destruct (IH (Hl1 l1 eq_refl)) as [Hsent2 Hl2].
    split; trivial. rewrite model_calls_app. apply Forall_app. now split.
Qed.

(** X7: in every history sent to the model, all assistant messages hold
    the same blocks: each assistant entry of [messages] is the one list
    object [assistant_message_content], so an earlier assistant message
    shows whatever was appended to the buffer after it was committed. *)
Theorem assistant_messages_share_buffer (query : string) (s : State E) :
  exists delta,
    trace (snd (process_query query s)) = trace s ++ delta /\
    Forall (fun sent => exists buffer, assistants_hold buffer sent) (model_calls delta).
Proof.
  rewrite process_query_transcript. cbn [snd].
  destruct (orchestrate_run query s) as [[_ ->] | (h & _ & Hrun)].
  - exists []. rewrite app_nil_r. split; [reflexivity | constructor].
  - destruct (session_list_tools E h (world s)) as [[e|tools] w1].
    + rewrite Hrun. cbn [snd]. exists [EvListTools]. rewrite trace_after.
      split; [reflexivity | constructor].
    + destruct Hrun as (followups & response & r & Ht & Hscan & _).
      exists (EvListTools :: first_call query tools :: followups). split; trivial.
      assert (Hinit : literals_are_users (E:=E) (initial query)).
      { unfold literals_are_users. cbn. constructor; [|constructor].
        intros Hrole. discriminate Hrole. }
      destruct (scan_run_buffer Hscan Hinit) as [Hsent _].
      cbn. constructor; trivial.
      exists []. unfold assistants_hold. constructor; [|constructor].
      intros Hrole. discriminate Hrole.
Qed.

(** *** More on [connect_to_server] *)

Lemma connect_cases (path : string) (s : State E) :
  endswith path ".py" || endswith path ".js" = true ->
  connect_to_server path s =
  match stdio_client E (server_parameters path) (world s) with
  | (inl e, w1) => (Raise e, after (EvStdioClient (server_parameters path)) w1 s)
  | (inr t, w1) =>
      let s1 := with_stdio_write t
                  (push (ResTransport t)
                     (after (EvStdioClient (server_parameters path)) w1 s)) in
      match ClientSession E t w1 with
      | (inl e, w2) => (Raise e, after EvClientSession w2 s1)
      | (inr h, w2) =>
          let s2 := with_session h (push (ResSession h) (after EvClientSession w2 s1)) in
          match session_initialize E h w2 with
          | (inl e, w3) => (Raise e, after EvInitialize w3 s2)
          | (inr _, w3) =>
              match session_list_tools E h w3 with
              | (inl e, w4) => (Raise e, after EvListTools w4 (after EvInitialize w3 s2))
              | (inr tools, w4) =>
                  (Ok tt, log (EvPrint (connected_text tools))
                              (after EvListTools w4 (after EvInitialize w3 s2)))
              end
          end
      end
  end.
Proof.
  intros Hext. unfold connect_to_server. rewrite Hext. cbn [negb].
  fold (server_parameters path).
  unfold enter_async_context, bind, call, set_stdio_write, set_session, get_session, print.
  destruct (stdio_client E (server_parameters path) (world s)) as [[e|t] w1];
    cbn; [reflexivity|].
  destruct (ClientSession E t w1) as [[e|h] w2]; cbn; [reflexivity|].
  destruct (session_initialize E h w2) as [[e|[]] w3]; cbn; [reflexivity|].
  destruct (session_list_tools E h w3) as [[e|tools] w4]; cbn; reflexivity.
Qed.

(** X8: [connect_to_server] makes its library calls in one fixed order
    and stops at the first that fails: launch, session, [initialize],
    [list_tools], then the printed tool names.  So [list_tools] is never
    called before [initialize] has returned, and the tool names are printed
    exactly when the connection succeeded; the names printed are those of
    the tools [list_tools] returned on the session now held in
    [self.session]. *)
Theorem connect_call_order (path : string) (s : State E) :
  endswith path ".py" || endswith path ".js" = true ->
  exists tools k,
    1 <= k <= 5 /\
    trace (snd (connect_to_server path s)) = trace s ++ firstn k (connect_calls path tools) /\
    (fst (connect_to_server path s) = Ok tt <-> k = 5) /\
    (k = 5 ->
     exists h w w',
       self_session (snd (connect_to_server path s)) = Some h /\
       session_list_tools E h w = (inr tools, w') /\
       world (snd (connect_to_server path s)) = w').
Proof.
  intros Hext. rewrite (connect_cases path s Hext).
  destruct (stdio_client E (server_parameters path) (world s)) as [[e|t] w1].
  { exists [], 1. cbn. repeat split; try lia; discriminate. }
  destruct (ClientSession E t w1) as [[e|h] w2].
  { exists [], 2. cbn. rewrite <- app_assoc. repeat split; try lia; discriminate. }
  destruct (session_initialize E h w2) as [[e|[]] w3].
  { exists [], 3. cbn. rewrite <- !app_assoc. repeat split; try lia; discriminate. }
  destruct (session_list_tools E h w3) as [[e|tools] w4] eqn:Hlist.
  { exists [], 4. cbn. rewrite <- !app_assoc. repeat split; try lia; discriminate. }
  exists tools, 5. cbn. rewrite <- !app_assoc. repeat split; try lia.
  intros _. now exists h, w3, w4.
Qed.

(** X9: what [connect_to_server] entered is on the exit stack, whatever
    happens next.  If the launch fails, nothing is registered and
    [self.session] keeps its value; if opening the session fails, the
    transport alone is registered; once the session is open it is on top
    of the transport and [self.session] is set, also when [initialize] or
    [list_tools] then fails. *)
Theorem connect_registers_entered (path : string) (s : State E) :
  endswith path ".py" || endswith path ".js" = true ->
  let s' := snd (connect_to_server path s) in
  (forall e w1,
     stdio_client E (server_parameters path) (world s) = (inl e, w1) ->
     fst (connect_to_server path s) = Raise e /\
     exit_stack s' = exit_stack s /\ self_session s' = self_session s) /\
  (forall t w1 e w2,
     stdio_client E (server_parameters path) (world s) = (inr t, w1) ->
     ClientSession E t w1 = (inl e, w2) ->
     fst (connect_to_server path s) = Raise e /\
     exit_stack s' = ResTransport t :: exit_stack s /\
     self_session s' = self_session s) /\
  (forall t w1 h w2,
     stdio_client E (server_parameters path) (world s) = (inr t, w1) ->
     ClientSession E t w1 = (inr h, w2) ->
     exit_stack s' = ResSession h :: ResTransport t :: exit_stack s /\
     self_session s' = Some h).
Proof.
  intros Hext s'. subst s'. rewrite (connect_cases path s Hext).
  split; [|split].
  - intros e w1 Hlaunch. now rewrite Hlaunch.
  - intros t w1 e w2 Hlaunch Hopen. now rewrite Hlaunch, Hopen.
  - intros t w1 h w2 Hlaunch Hopen. rewrite Hlaunch, Hopen. cbn zeta.
    destruct (session_initialize E h w2) as [[e|[]] w3]; [now split|].
    now destruct (session_list_tools E h w3) as [[e|tools] w4].
Qed.

(** *** More on the driver loop *)

Lemma chat_loop_banner (fuel : nat) (s : State E) :
  chat_loop fuel s
    = while_true fuel (log (EvPrint "Type your queries or 'quit' to exit.")
                          (log (EvPrint (LF ++ "MCP Client Started!")) s)).
Proof. reflexivity. Qed.

(** X10: when the line read is [quit] (after [strip] and [lower]), the
    loop ends at once: [chat_loop] returns having printed its two banner
    lines and read one line, without any call on the session or the
    model. *)
Theorem quit_ends_chat_loop (fuel : nat) (s : State E) (line : string) (w1 : World E) :
  builtin_input E PROMPT (world s) = (inr line, w1) ->
  String.eqb (str_lower E (str_strip E line)) "quit" = true ->
  chat_loop (S fuel) s
    = (Ok tt,
       after (EvInput PROMPT) w1
         (log (EvPrint "Type your queries or 'quit' to exit.")
            (log (EvPrint (LF ++ "MCP Client Started!")) s))).
Proof.
  intros Hin Hquit. rewrite chat_loop_banner. cbn [while_true].
  assert (Hpass : forall s0, world s0 = world s ->
            chat_iteration s0 = (Ok Break, after (EvInput PROMPT) w1 s0)).
  { intros s0 Hw. unfold chat_iteration, try_except, chat_try. rewrite <- Hw in Hin.
    rewrite (bind_ok _ _ _ (call_ok (EvInput PROMPT) _ _ Hin)). cbn zeta.
    now rewrite Hquit. }
  now rewrite (bind_ok _ _ _ (Hpass (log (EvPrint "Type your queries or 'quit' to exit.")
                                        (log (EvPrint (LF ++ "MCP Client Started!")) s))
                                   eq_refl)).
Qed.

Lemma pass_after_input_error (s : State E) (e : PyExc) (w1 : World E) :
  builtin_input E PROMPT (world s) = (inl e, w1) ->
  is_Exception e = true ->
  chat_iteration s
    = (Ok Continue,
       log (EvPrint (LF ++ "Error: " ++ str_exc e)) (after (EvInput PROMPT) w1 s)).
Proof.
  intros Hin Hexc. unfold chat_iteration, try_except, chat_try.
  now rewrite (bind_raise _ _ _ (call_raise (EvInput PROMPT) _ _ Hin)), Hexc.
Qed.

(** X11: an error of [input] does not end the loop.  While reading keeps
    failing with an [Exception] (EOFError at the end of the input), every
    pass prints the error and reads again, so [chat_loop] never returns. *)
Theorem loop_never_ends_on_input_errors (no_input : World E -> Prop) :
  (forall w, no_input w ->
     exists e w', builtin_input E PROMPT w = (inl e, w') /\
                  is_Exception e = true /\ no_input w') ->
  forall fuel s, no_input (world s) -> fst (chat_loop fuel s) = Running.
Proof.
  intros Hfail fuel s Hs.
  assert (Hloop : forall n (s0 : State E),
            no_input (world s0) -> fst (while_true n s0) = Running).
  { induction n as [|n IH]; intros s0 Hs0; [reflexivity|]. cbn [while_true].
    destruct (Hfail _ Hs0) as (e & w' & Hin & Hexc & Hnext).
    rewrite (bind_ok _ _ _ (pass_after_input_error s0 Hin Hexc)).
    now apply IH. }
  rewrite chat_loop_banner. now apply Hloop.
Qed.

Lemma emits_chat_loop (fuel : nat) : emits (E:=E) is_console_event (chat_loop fuel).
Proof.
  unfold chat_loop.
  apply emits_bind; [now apply emits_print | intros _].
  apply emits_bind; [now apply emits_print | intros _].
  apply emits_while_true.
Qed.

Lemma chat_iteration_self (s : State E) : same_self s (snd (chat_iteration s)).
Proof.
  unfold chat_iteration, try_except.
  destruct (chat_try s) as [o s1] eqn:Htry.
  destruct (chat_try_state _ Htry) as (w1 & ->).
  destruct o as [c | e |]; [now repeat split | | now repeat split].
  destruct (is_Exception e); now repeat split.
Qed.

Lemma chat_iteration_escapes (s : State E) (e : PyExc) :
  fst (chat_iteration s) = Raise e -> is_Exception e = false.
Proof.
  unfold chat_iteration, try_except.
  match goal with |- context [match ?body s with _ => _ end] =>
    destruct (body s) as [[c | e0 |] s1]
  end; cbn [fst]; try discriminate.
  destruct (is_Exception e0) eqn:Hexc; [discriminate|]. now intros [= <-].
Qed.

(** X12: no [Exception] ever leaves [chat_loop] (printing being taken not
    to fail): besides [quit], the only way out of the loop is an exception
    that does not derive from [Exception] (KeyboardInterrupt,
    CancelledError, SystemExit). *)
Theorem chat_loop_raises_no_exception (fuel : nat) (s : State E) (e : PyExc) :
  fst (chat_loop fuel s) = Raise e -> is_Exception e = false.
Proof.
  assert (Hloop : forall n (s0 : State E),
            fst (while_true n s0) = Raise e -> is_Exception e = false).
  { induction n as [|n IH]; intros s0; [discriminate|]. cbn [while_true].
    destruct (bind chat_iteration _ s0) as [o s'] eqn:Hb. cbn [fst]. intros ->.
    apply bind_inv in Hb as [(c & s1 & Hc & Hk) | [(e' & Hc & [= <-]) | (_ & Hrun)]].
    - destruct c; [|discriminate]. apply (IH s1). now rewrite Hk.
    - apply (chat_iteration_escapes s0). now rewrite Hc.
    - discriminate. }
  rewrite chat_loop_banner. apply Hloop.
Qed.

(** X15: as the file is written, the loop stays on the console: whatever
    is typed, [chat_loop] calls nothing but [input] and [print], so no
    query reaches the session or the model, and it leaves the attributes
    of [self] as they were. *)
Theorem chat_loop_stays_on_console (fuel : nat) (s : State E) :
  (exists delta,
     trace (snd (chat_loop fuel s)) = trace s ++ delta /\
     forallb is_console_event delta = true /\
     model_calls delta = [] /\ tool_calls delta = []) /\
  same_self s (snd (chat_loop fuel s)).
Proof.
  split.
  - destruct (emits_chat_loop fuel s) as (delta & Ht & Hconsole).
    exists delta. split; trivial. split; trivial.
    clear Ht. induction delta as [|ev delta IH]; [now split|].
    cbn [forallb] in Hconsole. apply andb_prop in Hconsole as [Hev Hrest].
    destruct (IH Hrest) as [Hm Hc].
    destruct ev; try discriminate; cbn; now split.
  - rewrite chat_loop_banner.
    assert (Hloop : forall n (s0 : State E), same_self s0 (snd (while_true n s0))).
    { induction n as [|n IH]; intros s0; [now repeat split|]. cbn [while_true].
      generalize (chat_iteration_self s0). unfold bind.
      destruct (chat_iteration s0) as [[[|] | e |] s1]; cbn [snd]; trivial.
      intros Hpass. eapply same_self_trans; [exact Hpass | apply IH]. }
    eapply same_self_trans; [|apply Hloop]. now repeat split.
Qed.

(** *** More on [main] *)

(** X13: as the file is written, [main] never returns normally and never
    reaches the server, the model or the user's input.  Its one library
    call is the print of the usage line when the script path is missing
    and the construction of the client otherwise, and it always ends with
    an exception. *)
Theorem main_never_reaches_server (fuel : nat) (argv : list string) (s : State E) :
  (exists e, fst (main fuel argv s) = Raise e) /\
  trace (snd (main fuel argv s))
    = trace s ++ [if Nat.ltb (List.length argv) 2
                  then EvPrint "Usage: python client.py <path_to_server_script>"
                  else EvAnthropic].
Proof.
  unfold main. destruct (Nat.ltb (List.length argv) 2).
  - split; [now exists (SystemExit 1) | reflexivity].
  - destruct (Anthropic_new E (world s)) as [[e|[]] w0] eqn:Hinit.
    + assert (Hrun : MCPClient_init s = (Raise e, after EvAnthropic w0 (blank s))).
      { unfold MCPClient_init, call. cbn [world]. now rewrite Hinit. }
      rewrite (bind_raise _ _ _ Hrun). split; [now exists e | reflexivity].
    + rewrite (bind_ok _ _ _ (MCPClient_init_ok s Hinit)).
      split; [now exists (no_attribute "cleanup") | reflexivity].
Qed.

(** X14: without a script path [main] prints the usage line and exits
    with status 1 before a client exists; and when building the client
    fails, that error leaves [main] before the [try] is entered, so nothing
    is closed. *)
Theorem main_without_client (fuel : nat) (argv : list string) (s : State E) :
  (List.length argv < 2 ->
   main fuel argv s
     = (Raise (SystemExit 1),
        log (EvPrint "Usage: python client.py <path_to_server_script>") s)) /\
  (2 <= List.length argv ->
   forall e w0,
     Anthropic_new E (world s) = (inl e, w0) ->
     main fuel argv s = (Raise e, after EvAnthropic w0 (blank s))).
Proof.
  unfold main. split; intros Hargv.
  - destruct (Nat.ltb_spec (List.length argv) 2) as [_|Hge]; [reflexivity | lia].
  - intros e w0 Hinit.
    destruct (Nat.ltb_spec (List.length argv) 2) as [Hlt|_]; [lia|].
    apply bind_raise. unfold MCPClient_init, call. cbn [world]. now rewrite Hinit.
Qed.

End MoreProperties.

(** ** Properties of the weather helpers *)

Section RequestProperties.
Variable H : Http.
Local Open Scope list_scope.

(** Case analysis on every answer of httpx along a request. *)
Ltac answers_of_httpx :=
  unfold make_nws_request, async_with_client, htry_except, hbind, hcall, hret;
  cbn [hworld htrace];
  repeat match goal with
         | |- context [let (_, _) := ?op in _] =>
             lazymatch op with
             | context [let (_, _) := _ in _] => fail
             | context [if _ then _ else _] => fail
             | _ => let Hop := fresh "Hop" in
                    destruct op as [[?e|?a] ?w] eqn:Hop; cbn [hworld htrace fst snd]
             end
         | |- context [if is_Exception ?e then _ else _] =>
             let Hexc := fresh "Hexc" in
             destruct (is_Exception e) eqn:Hexc; cbn [hworld htrace fst snd]
         end.

(** X16: provided the client opens and closes without error, no
    [Exception] leaves [make_nws_request]: a failed GET, an error status
    and an undecodable body are all answered with [None]. *)
Theorem make_nws_request_swallows (url : string) (s : HttpState H)
    (client : HClient H) (w1 : HWorld H) :
  AsyncClient_enter H (hworld s) = (inr client, w1) ->
  (forall c w, exists w', AsyncClient_exit H c w = (inr tt, w')) ->
  forall e, fst (make_nws_request url s) = inl e -> is_Exception e = false.
Proof.
  intros Hopen Hclose e. revert Hopen.
  answers_of_httpx; intros Hopen; try discriminate; try congruence;
    intros [= <-];
    first [ assumption
          | match goal with
            | Hx : AsyncClient_exit H ?c ?w = (inl _, _) |- _ =>
                destruct (Hclose c w) as (w' & Hok); congruence
            end ].
Qed.

(** X17: provided the client opens and closes without error,
    [make_nws_request] returns what [response.json()] returned whenever the
    GET, the status check and the decoding all succeeded, [None] for the
    body [null] included; and a result other than [None] is always the
    value decoded from a response that passed the status check. *)
Theorem make_nws_request_decodes (url : string) (s : HttpState H)
    (client : HClient H) (w1 : HWorld H) :
  AsyncClient_enter H (hworld s) = (inr client, w1) ->
  (forall c w, exists w', AsyncClient_exit H c w = (inr tt, w')) ->
  (forall response w2 w3 json w4,
     client_get H client url [("User-Agent", "weather-app/1.0"%string);
                              ("Accept", "application/geo+json"%string)] 30 w1
       = (inr response, w2) ->
     raise_for_status H response w2 = (inr tt, w3) ->
     response_json H response w3 = (inr json, w4) ->
     fst (make_nws_request url s) = inr json) /\
  (forall v,
     fst (make_nws_request url s) = inr v ->
     v <> PyNone ->
     exists response w2 w3 w4,
       client_get H client url [("User-Agent", "weather-app/1.0"%string);
                                ("Accept", "application/geo+json"%string)] 30 w1
         = (inr response, w2) /\
       raise_for_status H response w2 = (inr tt, w3) /\
       response_json H response w3 = (inr v, w4)).
Proof.
  intros Hopen Hclose. split.
  - intros response w2 w3 json w4 Hget Hstatus Hjson.
    unfold make_nws_request, async_with_client, htry_except, hbind, hcall, hret.
    cbn [hworld htrace]. rewrite Hopen. cbn [hworld htrace].
    change (client_get H client url request_headers TIMEOUT w1 = (inr response, w2))
      in Hget.
    rewrite Hget. cbn [hworld htrace].
    rewrite Hstatus. cbn [hworld htrace]. rewrite Hjson. cbn [hworld htrace].
    destruct (Hclose client w4) as (w' & ->). reflexivity.
  - intros v. revert Hopen. answers_of_httpx; intros Hopen; try discriminate;
      injection Hopen as <- <-; intros [= <-] Hv; try (now contradiction Hv).
    repeat match goal with u : unit |- _ => destruct u end.
    eauto 8.
Qed.


End RequestProperties.

Section AlertProperties.
Variable str_dict : list (string * PyValue) -> string.

Lemma str_app_assoc (a b c : string) : ((a ++ b) ++ c = a ++ (b ++ c))%string.
Proof. induction a as [|x a IH]; cbn; [reflexivity | now rewrite IH]. Qed.

(** X19: [format_alert] reads five properties and nothing else: two
    features whose [properties] agree on [event], [areaDesc], [severity],
    [description] and [instruction] are formatted alike, whatever else the
    features hold and in whatever order. *)
Theorem format_alert_reads_five_keys (f1 f2 p1 p2 : list (string * PyValue)) :
  dict_get "properties" f1 = Some (PyDict p1) ->
  dict_get "properties" f2 = Some (PyDict p2) ->
  (forall key, In key alert_keys -> dict_get key p1 = dict_get key p2) ->
  format_alert str_dict f1 = format_alert str_dict f2.
Proof.
  intros H1 H2 Hsame. unfold format_alert, shown. rewrite H1, H2.
  now rewrite !Hsame by (cbn; auto 10).
Qed.

(** X20: the defaults stand in for missing keys only.  With [instruction]
    absent the text ends with the default instructions line; with
    [instruction] present but null (as the weather service sends it) the
    line reads [Instructions: None]. *)
Theorem format_alert_null_is_not_missing (feature props : list (string * PyValue)) :
  dict_get "properties" feature = Some (PyDict props) ->
  exists before,
    (dict_get "instruction" props = None ->
     format_alert str_dict feature
       = inr (before ++ "Instructions: No specific instructions provided" ++ LF)%string) /\
    (dict_get "instruction" props = Some PyNone ->
     format_alert str_dict feature = inr (before ++ "Instructions: None" ++ LF)%string).
Proof.
  intros Hprops.
  exists (LF ++ "Event: " ++ shown str_dict props "event" "Unknown" ++ LF
             ++ "Area: " ++ shown str_dict props "areaDesc" "Unknown" ++ LF
             ++ "Severity: " ++ shown str_dict props "severity" "Unknown" ++ LF
             ++ "Description: "
             ++ shown str_dict props "description" "No description available" ++ LF)%string.
  unfold format_alert. rewrite Hprops.
  split; intros Hkey; unfold shown at 5; rewrite Hkey; cbn [str_value];
    f_equal; rewrite !str_app_assoc; reflexivity.
Qed.

End AlertProperties.

(** ** Further concrete runs *)

Section MoreConcrete.
Import Scripted MoreScripted.
Local Open Scope list_scope.

Lemma process_query_needs_session_witness :
  process_query "hi" leaving
    = (Raise (AttributeError "'NoneType' object has no attribute 'list_tools'"), leaving).
Proof. apply (@process_query_needs_session E "hi" leaving). reflexivity. Defined.

Lemma same_tools_on_every_call_witness :
  exists delta,
    trace (snd (process_query "q" two_tool_uses)) = trace two_tool_uses ++ delta /\
    Forall (fun p => p = ("claude-sonnet-4-20250514"%string, 1000,
                          [ {| param_name := "lookup"%string;
                               param_description := Some "Look a value up"%string;
                               input_schema := "{'type': 'object'}"%string |} ]))
           (create_params delta).
Proof.
  apply (@same_tools_on_every_call E "q" two_tool_uses tt [lookup] (world two_tool_uses));
    reflexivity.
Defined.


Lemma tool_error_ends_query_witness :
  scan (E:=E) [] [ToolUseBlock "tu_1" "lookup" x1; TextBlock "never reached"]
       (initial "weather?") tool_fails
    = (Raise tool_failed,
       after (E:=E) (EvCallTool "lookup" x1) (snd (pop_tool (world tool_fails))) tool_fails).
Proof.
  apply (@tool_error_ends_query E [] "tu_1" "lookup" x1 [TextBlock "never reached"]
           (initial "weather?") tool_fails tt tool_failed); reflexivity.
Defined.

Lemma connect_call_order_witness :
  exists tools k,
    1 <= k <= 5 /\
    trace (snd (connect_to_server "server.py" leaving))
      = trace leaving ++ firstn k (connect_calls (E:=E) "server.py" tools) /\
    (fst (connect_to_server "server.py" leaving) = Ok tt <-> k = 5) /\
    (k = 5 ->
     exists h w w',
       self_session (snd (connect_to_server "server.py" leaving)) = Some h /\
       session_list_tools E h w = (inr tools, w') /\
       world (snd (connect_to_server "server.py" leaving)) = w').
Proof. apply (@connect_call_order E "server.py" leaving). reflexivity. Defined.

Lemma connect_registers_entered_witness :
  exit_stack (snd (connect_to_server "server.js" leaving))
    = [ResSession tt; ResTransport tt] /\
  self_session (snd (connect_to_server "server.js" leaving)) = Some tt.
Proof.
  apply (proj2 (proj2 (@connect_registers_entered E "server.js" leaving eq_refl))
           tt (world leaving) tt (world leaving)); reflexivity.
Defined.

Lemma quit_ends_chat_loop_witness :
  chat_loop 1 quitting
    = (Ok tt,
       after (E:=E) (EvInput PROMPT) (snd (pop_line (world quitting)))
         (log (EvPrint "Type your queries or 'quit' to exit.")
            (log (EvPrint (LF ++ "MCP Client Started!")) quitting))).
Proof.
  apply (@quit_ends_chat_loop E 0 quitting "quit"); reflexivity.
Defined.

Lemma loop_never_ends_on_input_errors_witness :
  fst (chat_loop 4 at_eof) = Running.
Proof.
  apply (@loop_never_ends_on_input_errors E no_lines); [|reflexivity].
  intros w Hw. exists (EOFError "EOF when reading a line"), w.
  unfold no_lines in Hw. cbn. unfold pop_line. rewrite Hw. now repeat split.
Defined.

Lemma chat_loop_raises_no_exception_witness :
  fst (chat_loop 2 interrupted) = Raise KeyboardInterrupt /\
  is_Exception KeyboardInterrupt = false.
Proof.
  assert (Hrun : fst (chat_loop 2 interrupted) = Raise KeyboardInterrupt)
    by (vm_compute; reflexivity).
  split; [exact Hrun|].
  exact (@chat_loop_raises_no_exception E_ctrl_c 2 interrupted KeyboardInterrupt Hrun).
Defined.

Lemma main_without_client_witness :
  main 1 ["client.py"%string] leaving
    = (Raise (SystemExit 1),
       log (EvPrint "Usage: python client.py <path_to_server_script>") leaving) /\
  main 1 argv without_key
    = (Raise no_api_key, after (E:=E_no_key) EvAnthropic (world without_key) (blank without_key)).
Proof.
  split.
  - apply (proj1 (@main_without_client E 1 ["client.py"%string] leaving)). apply le_n.
  - apply (proj2 (@main_without_client E_no_key 1 argv without_key)); [apply le_n | reflexivity].
Defined.

Import ScriptedHttp.

Lemma make_nws_request_swallows_witness :
  fst (make_nws_request alerts_url interrupted) = inl KeyboardInterrupt /\
  is_Exception KeyboardInterrupt = false /\
  fst (make_nws_request alerts_url not_found) = inr PyNone.
Proof.
  assert (Hrun : fst (make_nws_request alerts_url ScriptedHttp.interrupted)
                 = inl KeyboardInterrupt) by reflexivity.
  split; [exact Hrun|]. split; [|reflexivity].
  apply (@make_nws_request_swallows H alerts_url ScriptedHttp.interrupted tt
           (hworld ScriptedHttp.interrupted) eq_refl); [|exact Hrun].
  intros c w. now exists w.
Defined.

(** A decoded body is returned as it is, and a [null] body gives the
    [None] that a failed request gives. *)
Lemma make_nws_request_decodes_witness :
  fst (make_nws_request alerts_url answers) = inr no_features /\
  fst (make_nws_request alerts_url answers_null) = inr PyNone /\
  exists response w2 w3 w4,
    client_get H tt alerts_url [("User-Agent", "weather-app/1.0"%string);
                                ("Accept", "application/geo+json"%string)] 30
               (hworld answers)
      = (inr response, w2) /\
    raise_for_status H response w2 = (inr tt, w3) /\
    response_json H response w3 = (inr no_features, w4).
Proof.
  assert (Hclose : forall (c : HClient H) (w : HWorld H),
            exists w', AsyncClient_exit H c w = (inr tt, w'))
    by (intros c w; now exists w).
  split; [|split].
  - exact (proj1 (@make_nws_request_decodes H alerts_url answers tt (hworld answers)
                    eq_refl Hclose)
             "response"%string (hworld answers) (hworld answers) no_features
             (hworld answers) eq_refl eq_refl eq_refl).
  - exact (proj1 (@make_nws_request_decodes H alerts_url answers_null tt
                    (hworld answers_null) eq_refl Hclose)
             "response"%string (hworld answers_null) (hworld answers_null) PyNone
             (hworld answers_null) eq_refl eq_refl eq_refl).
  - apply (proj2 (@make_nws_request_decodes H alerts_url answers tt (hworld answers)
                    eq_refl Hclose) no_features); [reflexivity | discriminate].
Defined.


Lemma format_alert_reads_five_keys_witness :
  format_alert show_dict flood = format_alert show_dict flood_verbose.
Proof.
  eapply (@format_alert_reads_five_keys show_dict flood flood_verbose);
    [reflexivity | reflexivity |].
  intros key Hkey. cbn in Hkey.
  repeat (destruct Hkey as [<- | Hkey]; [reflexivity|]). contradiction.
Defined.

Lemma format_alert_null_is_not_missing_witness :
  (exists before,
     format_alert show_dict flood = inr (before ++ "Instructions: None" ++ LF)%string) /\
  (exists before,
     format_alert show_dict frost
       = inr (before ++ "Instructions: No specific instructions provided" ++ LF)%string).
Proof.
  split.
  - destruct (@format_alert_null_is_not_missing show_dict flood
                [("event", PyStr "Flood Warning"); ("areaDesc", PyStr "Napa");
                 ("description", PyStr "River rising"); ("instruction", PyNone)]%string
                eq_refl) as (before & _ & Hnull).
    exists before. apply Hnull. reflexivity.
  - destruct (@format_alert_null_is_not_missing show_dict frost
                [("event", PyStr "Frost Advisory")]%string eq_refl)
      as (before & Hmissing & _).
    exists before. apply Hmissing. reflexivity.
Defined.

End MoreConcrete.
